(** * lshash/storage.py: storage backends and the seeded compressor

    A shallow embedding of [src/lshash/storage.py] (Python 2).

    - A Python [str] is a byte string: it is a [string] here (a list of
      8-bit characters).
    - The module talks to four libraries that are not part of the
      repository: [zlib], [json], [redis] and [lmdb].  [zlib] and
      [json.dumps] are interfaces ([ZlibOps] with its laws [ZlibLaws], and
      [JsonOps]); the Redis keyspace and the LMDB sub-database are
      modelled after the documented behaviour of the commands the module
      issues.
    - Python objects that are mutated in place (zlib stream objects, the
      configuration dictionaries, the in-memory backend's dictionary) live
      in a store, the [world], and are named by their position in it.
    - A method is a function [world -> outcome A * world]: what it
      returns or raises, and the world it leaves behind. *)

From stdpp Require Import gmap strings list pretty sorting.
From Stdlib Require Import ZArith Ascii.

Set Warnings "-register-all".

Open Scope Z_scope.

(** ** Python values, exceptions, outcomes *)

Inductive exn : Type :=
  | KeyError (key : string)
  | AttributeError
  | TypeError
  | ValueError (msg : string)
  | ImportError (msg : string)
  | NotImplementedError
  | SystemError
  | zlib_error
  | json_error
  | redis_ResponseError
  | lmdb_BadValsizeError.

Inductive outcome (A : Type) : Type :=
  | Returned (a : A)
  | Raised (e : exn)
  | OutOfFuel.
Arguments Returned {A} a.
Arguments Raised {A} e.
Arguments OutOfFuel {A}.

(** The values callers hand to [append_val] and get back from the
    backends. [PDict] lists the items of a dictionary in its iteration
    order. *)
Inductive pyval : Type :=
  | PNone
  | PBool (b : bool)
  | PInt (z : Z)
  | PStr (s : string)
  | PList (l : list pyval)
  | PDict (d : list (string * pyval)).

(** What a configuration dictionary holds: numbers, strings, and nested
    dictionaries, the latter by reference. *)
Inductive cfgval : Type :=
  | CInt (z : Z)
  | CStr (s : string)
  | CObj (l : nat).

(** ** The [zlib] and [json] interfaces *)

Inductive flush_mode : Type := Z_NO_FLUSH | Z_SYNC_FLUSH | Z_FINISH.

(** The C library under Python's [zlib]: a deflate stream and an inflate
    stream.  [deflate st input mode] consumes all of [input] and gives
    the bytes produced; [inflate st input] gives the bytes decoded, or
    [None] on a data error. *)
Class ZlibOps : Type := {
  deflate_state : Type;
  inflate_state : Type;
  deflateInit : Z -> deflate_state;
  deflate : deflate_state -> string -> flush_mode -> deflate_state * string;
  inflateInit : inflate_state;
  inflate : inflate_state -> string -> option (inflate_state * string)
}.

(** [json.dumps]: the text of a value, or [None] when it raises. *)
Class JsonOps : Type := {
  json_dumps : pyval -> option string
}.

(** A run of a deflate stream: the calls made on it, in order. *)
Fixpoint deflate_run {zops : ZlibOps} (st : deflate_state)
    (steps : list (string * flush_mode)) : deflate_state * string :=
  match steps with
  | [] => (st, "")
  | (x, m) :: rest =>
      let '(st1, o1) := deflate st x m in
      let '(st2, o2) := deflate_run st1 rest in
      (st2, o1 +:+ o2)
  end.

Fixpoint plain_of (steps : list (string * flush_mode)) : string :=
  match steps with
  | [] => ""
  | (x, _) :: rest => x +:+ plain_of rest
  end.

Definition is_flush (m : flush_mode) : bool :=
  match m with Z_NO_FLUSH => false | _ => true end.

Definition is_finish (m : flush_mode) : bool :=
  match m with Z_FINISH => true | _ => false end.

(** A run ends in a flush, and nothing follows a [Z_FINISH]. *)
Fixpoint well_flushed (steps : list (string * flush_mode)) : bool :=
  match steps with
  | [] => false
  | [(_, m)] => is_flush m
  | (_, m) :: rest => negb (is_finish m) && well_flushed rest
  end.

(** What the module relies on from zlib: a stream can be inflated piece
    by piece, and a flushed deflate stream inflates to what was fed. *)
Class ZlibLaws (ops : ZlibOps) : Prop := {
  inflate_app : forall (st : inflate_state) (a b : string),
    inflate st (a +:+ b) =
      match inflate st a with
      | Some (st1, y1) =>
          match inflate st1 b with
          | Some (st2, y2) => Some (st2, y1 +:+ y2)
          | None => None
          end
      | None => None
      end;
  inflate_deflate : forall (level : Z) (steps : list (string * flush_mode)),
    well_flushed steps = true ->
    exists st,
      inflate inflateInit (deflate_run (deflateInit level) steps).2
        = Some (st, plain_of steps)
}.

(** ** The world *)

Section Model.
Context {zops : ZlibOps} {jops : JsonOps}.

(** [zlib.compressobj] and [zlib.decompressobj] objects. *)
Record CompressObj : Type := {
  c_zst : deflate_state;
  c_is_initialised : bool
}.

Record DecompressObj : Type := {
  d_zst : inflate_state;
  unconsumed_tail : string
}.

(** A Redis key holds a string or a list. *)
Inductive redis_val : Type :=
  | RString (s : string)
  | RList (l : list string).

(** The world: the zlib objects ([w_zc], [w_zd]), the dictionaries of
    configurations ([w_dicts]) and of in-memory backends ([w_mem]), the
    keyspaces of the Redis server by database number ([w_redis]), the
    LMDB sub-databases by path and name ([w_lmdb]), and whether the
    imports of [redis] and [lmdb] succeeded. *)
Record world : Type := {
  w_zc : list CompressObj;
  w_zd : list DecompressObj;
  w_dicts : list (gmap string cfgval);
  w_mem : list (gmap string pyval);
  w_redis : gmap Z (gmap string redis_val);
  w_lmdb : gmap (string * string) (gmap string (list string));
  w_redis_module : bool;
  w_lmdb_module : bool
}.

Definition set_zc (f : list CompressObj -> list CompressObj) (w : world) : world :=
  {| w_zc := f (w_zc w); w_zd := w_zd w; w_dicts := w_dicts w; w_mem := w_mem w;
     w_redis := w_redis w; w_lmdb := w_lmdb w;
     w_redis_module := w_redis_module w; w_lmdb_module := w_lmdb_module w |}.

Definition set_zd (f : list DecompressObj -> list DecompressObj) (w : world) : world :=
  {| w_zc := w_zc w; w_zd := f (w_zd w); w_dicts := w_dicts w; w_mem := w_mem w;
     w_redis := w_redis w; w_lmdb := w_lmdb w;
     w_redis_module := w_redis_module w; w_lmdb_module := w_lmdb_module w |}.

Definition set_dicts (f : list (gmap string cfgval) -> list (gmap string cfgval))
    (w : world) : world :=
  {| w_zc := w_zc w; w_zd := w_zd w; w_dicts := f (w_dicts w); w_mem := w_mem w;
     w_redis := w_redis w; w_lmdb := w_lmdb w;
     w_redis_module := w_redis_module w; w_lmdb_module := w_lmdb_module w |}.

Definition set_mem (f : list (gmap string pyval) -> list (gmap string pyval))
    (w : world) : world :=
  {| w_zc := w_zc w; w_zd := w_zd w; w_dicts := w_dicts w; w_mem := f (w_mem w);
     w_redis := w_redis w; w_lmdb := w_lmdb w;
     w_redis_module := w_redis_module w; w_lmdb_module := w_lmdb_module w |}.

Definition set_redis (f : gmap Z (gmap string redis_val) -> gmap Z (gmap string redis_val))
    (w : world) : world :=
  {| w_zc := w_zc w; w_zd := w_zd w; w_dicts := w_dicts w; w_mem := w_mem w;
     w_redis := f (w_redis w); w_lmdb := w_lmdb w;
     w_redis_module := w_redis_module w; w_lmdb_module := w_lmdb_module w |}.

Definition set_lmdb
    (f : gmap (string * string) (gmap string (list string)) ->
         gmap (string * string) (gmap string (list string)))
    (w : world) : world :=
  {| w_zc := w_zc w; w_zd := w_zd w; w_dicts := w_dicts w; w_mem := w_mem w;
     w_redis := w_redis w; w_lmdb := f (w_lmdb w);
     w_redis_module := w_redis_module w; w_lmdb_module := w_lmdb_module w |}.

(** ** The monad of methods *)

Definition Py (A : Type) : Type := world -> outcome A * world.

Definition ret {A} (a : A) : Py A := fun w => (Returned a, w).

Definition bind {A B} (m : Py A) (k : A -> Py B) : Py B :=
  fun w =>
    match m w with
    | (Returned a, w1) => k a w1
    | (Raised e, w1) => (Raised e, w1)
    | (OutOfFuel, w1) => (OutOfFuel, w1)
    end.

Definition raise {A} (e : exn) : Py A := fun w => (Raised e, w).

Definition out_of_fuel {A} : Py A := fun w => (OutOfFuel, w).

Definition gets {A} (f : world -> A) : Py A := fun w => (Returned (f w), w).

Definition modify (f : world -> world) : Py unit := fun w => (Returned tt, f w).

End Model.

Notation "x <- m ;; k" := (bind m (fun x => k))
  (at level 100, m at next level, right associativity).
Notation "m ;;; k" := (bind m (fun _ => k))
  (at level 100, right associativity).

Section Zlib.
Context {zops : ZlibOps} {jops : JsonOps}.

(** ** Python's [zlib] objects *)

(** [zlib.compressobj(level)] *)
Definition compressobj (level : Z) : Py nat :=
  c <- gets (fun w => length (w_zc w)) ;;
  modify (set_zc (fun h => h ++ [{| c_zst := deflateInit level;
                                    c_is_initialised := true |}])) ;;;
  ret c.

Definition Compress_deref (c : nat) : Py CompressObj :=
  o <- gets (fun w => w_zc w !! c) ;;
  match o with
  | Some obj => ret obj
  | None => raise SystemError
  end.

(** [c.compress(data)]: deflate with [Z_NO_FLUSH]; on an object that a
    [Z_FINISH] flush has closed the call raises [zlib.error]. *)
Definition Compress_compress (c : nat) (data : string) : Py string :=
  obj <- Compress_deref c ;;
  if c_is_initialised obj then
    let '(st, out) := deflate (c_zst obj) data Z_NO_FLUSH in
    modify (set_zc (fun h => <[c := {| c_zst := st; c_is_initialised := true |}]> h)) ;;;
    ret out
  else raise zlib_error.

(** [c.flush(mode)] *)
Definition Compress_flush (c : nat) (mode : flush_mode) : Py string :=
  match mode with
  | Z_NO_FLUSH => ret ""
  | _ =>
      obj <- Compress_deref c ;;
      if c_is_initialised obj then
        let '(st, out) := deflate (c_zst obj) "" mode in
        modify (set_zc (fun h =>
          <[c := {| c_zst := st; c_is_initialised := negb (is_finish mode) |}]> h)) ;;;
        ret out
      else raise zlib_error
  end.

(** [c.copy()] *)
Definition Compress_copy (c : nat) : Py nat :=
  obj <- Compress_deref c ;;
  if c_is_initialised obj then
    c' <- gets (fun w => length (w_zc w)) ;;
    modify (set_zc (fun h => h ++ [obj])) ;;;
    ret c'
  else raise (ValueError "Inconsistent stream state").

(** [zlib.decompressobj()] *)
Definition decompressobj : Py nat :=
  d <- gets (fun w => length (w_zd w)) ;;
  modify (set_zd (fun h => h ++ [{| d_zst := inflateInit; unconsumed_tail := "" |}])) ;;;
  ret d.

Definition Decompress_deref (d : nat) : Py DecompressObj :=
  o <- gets (fun w => w_zd w !! d) ;;
  match o with
  | Some obj => ret obj
  | None => raise SystemError
  end.

(** [d.decompress(string)], without [max_length]: all the input is
    consumed, so [unconsumed_tail] is left empty. *)
Definition Decompress_decompress (d : nat) (data : string) : Py string :=
  obj <- Decompress_deref d ;;
  match inflate (d_zst obj) data with
  | Some (st, out) =>
      modify (set_zd (fun h => <[d := {| d_zst := st; unconsumed_tail := "" |}]> h)) ;;;
      ret out
  | None => raise zlib_error
  end.

(** [d.copy()] *)
Definition Decompress_copy (d : nat) : Py nat :=
  obj <- Decompress_deref d ;;
  d' <- gets (fun w => length (w_zd w)) ;;
  modify (set_zd (fun h => h ++ [obj])) ;;;
  ret d'.

(** ** class Compressor *)

Record Compressor : Type := {
  c_context : nat;
  d_context : nat
}.

(** [while d.unconsumed_tail: t += d.decompress(d.unconsumed_tail)] *)
Fixpoint drain (fuel : nat) (d : nat) (t : string) : Py string :=
  obj <- Decompress_deref d ;;
  match unconsumed_tail obj with
  | "" => ret t
  | tl =>
      match fuel with
      | O => out_of_fuel
      | S fuel' =>
          o <- Decompress_decompress d tl ;;
          drain fuel' d (t +:+ o)
      end
  end.

(** [Compressor.__init__(self, seed)] *)
Definition Compressor_init (fuel : nat) (seed : string) : Py Compressor :=
  c <- compressobj 9 ;;
  d_seed <- Compress_compress c seed ;;
  d_seed' <- Compress_flush c Z_SYNC_FLUSH ;;
  let d_seed := d_seed +:+ d_seed' in
  c_context <- Compress_copy c ;;
  d <- decompressobj ;;
  Decompress_decompress d d_seed ;;;
  drain fuel d "" ;;;
  d_context <- Decompress_copy d ;;
  ret {| c_context := c_context; d_context := d_context |}.

(** [Compressor.compress(self, text)] *)
Definition Compressor_compress (self : Compressor) (text : string) : Py string :=
  c <- Compress_copy (c_context self) ;;
  t <- Compress_compress c text ;;
  t2 <- Compress_flush c Z_FINISH ;;
  ret (t +:+ t2).

(** [Compressor.decompress(self, ctext)] *)
Definition Compressor_decompress (fuel : nat) (self : Compressor) (ctext : string)
    : Py string :=
  d <- Decompress_copy (d_context self) ;;
  t <- Decompress_decompress d ctext ;;
  drain fuel d t.

End Zlib.

(** ** What the module asks of Redis and LMDB *)

(** The glob matcher behind Redis' [KEYS pattern]. *)
Class RedisOps : Type := {
  stringmatch : string -> string -> bool
}.

Class RedisLaws (ops : RedisOps) : Prop := {
  stringmatch_star : forall s : string, stringmatch "*" s = true
}.

(** [LRANGE key start stop] on the elements of a list: negative indices
    count from the end, and the range is clipped to the list. *)
Definition lrange_slice (l : list string) (start stop : Z) : list string :=
  let len := Z.of_nat (List.length l) in
  let start := if start <? 0 then Z.max 0 (len + start) else start in
  let stop := if stop <? 0 then len + stop else stop in
  let stop := Z.min stop (len - 1) in
  if (stop <? start) || (len <=? start) then []
  else take (Z.to_nat (stop - start + 1)) (drop (Z.to_nat start) l).

(** A [dupsort] sub-database keeps the values of a key as a sorted set:
    bytewise order, and a pair that is already there is not stored
    twice. *)
Fixpoint dup_insert (v : string) (l : list string) : list string :=
  match l with
  | [] => [v]
  | x :: rest =>
      match String.compare v x with
      | Lt => v :: x :: rest
      | Eq => x :: rest
      | Gt => x :: dup_insert v rest
      end
  end.

(** LMDB's [mdb_env_get_maxkeysize]: the longest key, and the longest
    value of a [dupsort] sub-database. *)
Definition lmdb_max_key_size : nat := 511%nat.

Section Storage.
Context {zops : ZlibOps} {jops : JsonOps} {rops : RedisOps}.

(** ** Dictionaries of the configuration *)

Definition dict_deref (d : nat) : Py (gmap string cfgval) :=
  o <- gets (fun w => w_dicts w !! d) ;;
  match o with
  | Some m => ret m
  | None => raise SystemError
  end.

(** [key in d] *)
Definition dict_contains (d : nat) (key : string) : Py bool :=
  m <- dict_deref d ;;
  ret (bool_decide (is_Some (m !! key))).

(** [d[key]] *)
Definition dict_getitem (d : cfgval) (key : string) : Py cfgval :=
  match d with
  | CObj l =>
      m <- dict_deref l ;;
      match m !! key with
      | Some v => ret v
      | None => raise (KeyError key)
      end
  | _ => raise TypeError
  end.

(** [d[key] = v] *)
Definition dict_setitem (d : cfgval) (key : string) (v : cfgval) : Py unit :=
  match d with
  | CObj l =>
      dict_deref l ;;;
      modify (set_dicts (fun h => alter (fun m => <[key := v]> m) l h))
  | _ => raise TypeError
  end.

(** ** class InMemoryStorage *)

Record InMemoryStorage : Type := {
  im_name : string;
  im_storage : nat
}.

(** [InMemoryStorage.__init__(self, config)] *)
Definition InMemoryStorage_init (config : cfgval) : Py InMemoryStorage :=
  s <- gets (fun w => List.length (w_mem w)) ;;
  modify (set_mem (fun h => h ++ [∅])) ;;;
  ret {| im_name := "dict"; im_storage := s |}.

Definition mem_deref (s : nat) : Py (gmap string pyval) :=
  o <- gets (fun w => w_mem w !! s) ;;
  match o with
  | Some m => ret m
  | None => raise SystemError
  end.

Definition InMemoryStorage_keys (self : InMemoryStorage) : Py pyval :=
  m <- mem_deref (im_storage self) ;;
  ret (PList (PStr <$> (map_to_list m).*1)).

(** [self.storage[key] = val]; [val] is a string, as the docstring of
    [BaseStorage.set_val] asks. *)
Definition InMemoryStorage_set_val (self : InMemoryStorage) (key val : string)
    : Py unit :=
  mem_deref (im_storage self) ;;;
  modify (set_mem (fun h => alter (fun m => <[key := PStr val]> m) (im_storage self) h)).

(** [self.storage[key]] *)
Definition InMemoryStorage_get_val (self : InMemoryStorage) (key : string)
    : Py pyval :=
  m <- mem_deref (im_storage self) ;;
  match m !! key with
  | Some v => ret v
  | None => raise (KeyError key)
  end.

(** [self.storage.setdefault(key, []).append(val)] *)
Definition InMemoryStorage_append_val (self : InMemoryStorage) (key : string)
    (val : pyval) : Py unit :=
  m <- mem_deref (im_storage self) ;;
  match default (PList []) (m !! key) with
  | PList l =>
      modify (set_mem (fun h =>
        alter (fun m => <[key := PList (l ++ [val])]> m) (im_storage self) h))
  | _ => raise AttributeError
  end.

(** [self.storage.get(key, [])] *)
Definition InMemoryStorage_get_list (self : InMemoryStorage) (key : string)
    : Py pyval :=
  m <- mem_deref (im_storage self) ;;
  ret (default (PList []) (m !! key)).

(** ** class RedisStorage *)

Definition seed : string :=
  "[4.0, 36.0, 18.0, 2.0, 0.0, 0.0, 0.0, 0.0, 1.0, 18.0, 75.0, 84.0, 1.0, 1.0, 1.0, 0.0, 0.0, 0.0, 70.0, 144.0, 14.0, 15.0, 12.0, 1.0, 0.0, 0.0, 9.0, 24.0, 3.0, 3.0, 10.0, 2.0, 6.0, 81.0, 122.0, 2.0, 0.0, 0.0, 0.0, 0.0, 144.0, 144.0, 144.0, 50.0, 1.0, 4.0, 14.0, 17.0, 52.0, 9.0, 15.0, 49.0, 14.0, 81.0, 144.0, 40.0, 0.0, 0.0, 1.0, 6.0, 3.0, 15.0, 97.0, 55.0, 11.0, 16.0, 13.0, 0.0, 0.0, 0.0, 0.0, 3.0, 144.0, 100.0, 18.0, 0.0, 0.0, 0.0, 2.0, 98.0, 144.0, 12.0, 0.0, 0.0, 0.0, 11.0, 60.0, 50.0, 0.0, 0.0, 0.0, 0.0, 6.0, 9.0, 35.0, 20.0, 0.0, 0.0, 0.0, 0.0, 0.0, 0.0, 0.0, 0.0, 93.0, 24.0, 0.0, 0.0, 0.0, 0.0, 0.0, 24.0, 71.0, 36.0, 0.0, 0.0, 0.0, 0.0, 1.0, 6.0, 0.0, 0.0, 0.0, 0.0, 1.0, 2.0, 1.0, 0.0]".

Record RedisStorage : Type := {
  r_name : string;
  r_storage : Z;
  r_c : Compressor
}.

(** [redis.StrictRedis], called with the items of [config] as keyword
    arguments: the client of the logical database [db]; no command is
    sent yet. The other connection parameters name the server, of which
    the world has one. *)
Definition StrictRedis (kwargs : gmap string cfgval) : Z :=
  match kwargs !! "db" with
  | Some (CInt n) => n
  | _ => 0
  end.

Definition keyspace (db : Z) : Py (gmap string redis_val) :=
  gets (fun w => default ∅ (w_redis w !! db)).

Definition keyspace_put (db : Z) (key : string) (v : redis_val) : Py unit :=
  modify (set_redis (fun r => <[db := <[key := v]> (default ∅ (r !! db))]> r)).

(** [KEYS pattern] *)
Definition StrictRedis_keys (db : Z) (pattern : string) : Py (list string) :=
  ks <- keyspace db ;;
  ret (filter (fun k => stringmatch pattern k = true) (map_to_list ks).*1).

(** [SET key val] *)
Definition StrictRedis_set (db : Z) (key val : string) : Py unit :=
  keyspace_put db key (RString val).

(** [GET key] *)
Definition StrictRedis_get (db : Z) (key : string) : Py pyval :=
  ks <- keyspace db ;;
  match ks !! key with
  | None => ret PNone
  | Some (RString s) => ret (PStr s)
  | Some (RList _) => raise redis_ResponseError
  end.

(** [RPUSH key val] *)
Definition StrictRedis_rpush (db : Z) (key val : string) : Py unit :=
  ks <- keyspace db ;;
  match ks !! key with
  | None => keyspace_put db key (RList [val])
  | Some (RList l) => keyspace_put db key (RList (l ++ [val]))
  | Some (RString _) => raise redis_ResponseError
  end.

(** [LRANGE key start stop] *)
Definition StrictRedis_lrange (db : Z) (key : string) (start stop : Z)
    : Py (list string) :=
  ks <- keyspace db ;;
  match ks !! key with
  | None => ret []
  | Some (RList l) => ret (lrange_slice l start stop)
  | Some (RString _) => raise redis_ResponseError
  end.

(** [RedisStorage.__init__(self, config)] *)
Definition RedisStorage_init (fuel : nat) (config : cfgval) : Py RedisStorage :=
  have <- gets w_redis_module ;;
  if negb have then raise (ImportError "redis-py is required to use Redis as storage.")
  else
    match config with
    | CObj l =>
        kwargs <- dict_deref l ;;
        c <- Compressor_init fuel seed ;;
        ret {| r_name := "redis"; r_storage := StrictRedis kwargs; r_c := c |}
    | _ => raise TypeError
    end.

Definition RedisStorage_keys (self : RedisStorage) (pattern : string) : Py pyval :=
  ks <- StrictRedis_keys (r_storage self) pattern ;;
  ret (PList (PStr <$> ks)).

Definition RedisStorage_set_val (self : RedisStorage) (key val : string) : Py unit :=
  StrictRedis_set (r_storage self) key val.

Definition RedisStorage_get_val (self : RedisStorage) (key : string) : Py pyval :=
  StrictRedis_get (r_storage self) key.

(** [json.dumps(val)] *)
Definition dumps (val : pyval) : Py string :=
  match json_dumps val with
  | Some s => ret s
  | None => raise json_error
  end.

Definition RedisStorage_append_val (self : RedisStorage) (key : string)
    (val : pyval) : Py unit :=
  text <- dumps val ;;
  cval <- Compressor_compress (r_c self) text ;;
  StrictRedis_rpush (r_storage self) key cval.

(** [[f(r) for r in rs]] *)
Fixpoint for_each {A B} (f : A -> Py B) (rs : list A) : Py (list B) :=
  match rs with
  | [] => ret []
  | r :: rest =>
      x <- f r ;;
      xs <- for_each f rest ;;
      ret (x :: xs)
  end.

Definition RedisStorage_get_list (fuel : nat) (self : RedisStorage) (key : string)
    : Py pyval :=
  rs <- StrictRedis_lrange (r_storage self) key 0 (-1) ;;
  result <- for_each (Compressor_decompress fuel (r_c self)) rs ;;
  ret (PList (PStr <$> result)).

(** ** class LMDBStorage *)

Record LMDBStorage : Type := {
  l_name : string;
  l_env : string;
  l_storage : string;
  l_c : Compressor
}.

Definition subdb (env db : string) : Py (gmap string (list string)) :=
  gets (fun w => default ∅ (w_lmdb w !! (env, db))).

(** [lmdb.open(path, ...)] and [env.open_db(name, dupsort=True)]: the
    sub-database is created when it is not there. *)
Definition Environment_open_db (env db : string) : Py unit :=
  modify (set_lmdb (fun m => <[(env, db) := default ∅ (m !! (env, db))]> m)).

(** [txn.put(key, value)] in a write transaction that commits when the
    [with] block ends and aborts when it raises. LMDB refuses
    ([MDB_BAD_VALSIZE]) an empty key, a key longer than the maximal key
    size and, in a [dupsort] sub-database, a value longer than that
    size. *)
Definition Transaction_put (env db key val : string) : Py bool :=
  if (String.length key =? 0)%nat
     || (lmdb_max_key_size <? String.length key)%nat
     || (lmdb_max_key_size <? String.length val)%nat
  then raise lmdb_BadValsizeError
  else
    tbl <- subdb env db ;;
    modify (set_lmdb (fun m =>
      <[(env, db) := <[key := dup_insert val (default [] (tbl !! key))]> tbl]> m)) ;;;
    ret true.

(** [cursor.set_key(key)]: whether [key] is in the sub-database; an
    empty key is refused ([MDB_BAD_VALSIZE]). *)
Definition Cursor_set_key (env db key : string) : Py bool :=
  if (String.length key =? 0)%nat then raise lmdb_BadValsizeError
  else
    tbl <- subdb env db ;;
    ret (bool_decide (is_Some (tbl !! key))).

(** [cursor.iternext_dup()], the cursor standing on [key] *)
Definition Cursor_iternext_dup (env db key : string) : Py (list string) :=
  tbl <- subdb env db ;;
  ret (default [] (tbl !! key)).

(** [LMDBStorage.__init__(self, config)] *)
Definition LMDBStorage_init (fuel : nat) (config : cfgval) : Py LMDBStorage :=
  have <- gets w_lmdb_module ;;
  if negb have then raise (ImportError "lmdb is required to use lmdb as storage.")
  else
    path <- dict_getitem config "path" ;;
    match path with
    | CStr path =>
        db <- dict_getitem config "db" ;;
        match db with
        | CStr db =>
            Environment_open_db path db ;;;
            c <- Compressor_init fuel seed ;;
            ret {| l_name := "lmdb"; l_env := path; l_storage := db; l_c := c |}
        | _ => raise TypeError
        end
    | _ => raise TypeError
    end.

Definition LMDBStorage_keys (self : LMDBStorage) (pattern : string) : Py pyval :=
  raise NotImplementedError.

Definition LMDBStorage_set_val (self : LMDBStorage) (key val : string) : Py unit :=
  raise NotImplementedError.

Definition LMDBStorage_get_val (self : LMDBStorage) (key : string) : Py pyval :=
  raise NotImplementedError.

Definition LMDBStorage_append_val (self : LMDBStorage) (key : string)
    (val : pyval) : Py unit :=
  text <- dumps val ;;
  cval <- Compressor_compress (l_c self) text ;;
  Transaction_put (l_env self) (l_storage self) key cval ;;;
  ret tt.

Definition LMDBStorage_get_list (fuel : nat) (self : LMDBStorage) (key : string)
    : Py pyval :=
  found <- Cursor_set_key (l_env self) (l_storage self) key ;;
  result <-
    (if found : bool then
       datas <- Cursor_iternext_dup (l_env self) (l_storage self) key ;;
       for_each (Compressor_decompress fuel (l_c self)) datas
     else ret []) ;;
  ret (PList (PStr <$> result)).

(** ** BaseStorage: the three implementations behind one interface *)

Inductive backend : Type :=
  | BInMemory (s : InMemoryStorage)
  | BRedis (s : RedisStorage)
  | BLMDB (s : LMDBStorage).

Definition keys (b : backend) : Py pyval :=
  match b with
  | BInMemory s => InMemoryStorage_keys s
  | BRedis s => RedisStorage_keys s "*"
  | BLMDB s => LMDBStorage_keys s "*"
  end.

Definition set_val (b : backend) (key val : string) : Py unit :=
  match b with
  | BInMemory s => InMemoryStorage_set_val s key val
  | BRedis s => RedisStorage_set_val s key val
  | BLMDB s => LMDBStorage_set_val s key val
  end.

Definition get_val (b : backend) (key : string) : Py pyval :=
  match b with
  | BInMemory s => InMemoryStorage_get_val s key
  | BRedis s => RedisStorage_get_val s key
  | BLMDB s => LMDBStorage_get_val s key
  end.

Definition append_val (b : backend) (key : string) (val : pyval) : Py unit :=
  match b with
  | BInMemory s => InMemoryStorage_append_val s key val
  | BRedis s => RedisStorage_append_val s key val
  | BLMDB s => LMDBStorage_append_val s key val
  end.

Definition get_list (fuel : nat) (b : backend) (key : string) : Py pyval :=
  match b with
  | BInMemory s => InMemoryStorage_get_list s key
  | BRedis s => RedisStorage_get_list fuel s key
  | BLMDB s => LMDBStorage_get_list fuel s key
  end.

(** ** def storage(storage_config, index) *)

Definition storage (fuel : nat) (storage_config : nat) (index : Z) : Py backend :=
  has_dict <- dict_contains storage_config "dict" ;;
  if has_dict : bool then
    config <- dict_getitem (CObj storage_config) "dict" ;;
    s <- InMemoryStorage_init config ;;
    ret (BInMemory s)
  else
    has_redis <- dict_contains storage_config "redis" ;;
    if has_redis : bool then
      sub <- dict_getitem (CObj storage_config) "redis" ;;
      dict_setitem sub "db" (CInt index) ;;;
      config <- dict_getitem (CObj storage_config) "redis" ;;
      s <- RedisStorage_init fuel config ;;
      ret (BRedis s)
    else
      has_lmdb <- dict_contains storage_config "lmdb" ;;
      if has_lmdb : bool then
        sub <- dict_getitem (CObj storage_config) "lmdb" ;;
        dict_setitem sub "db" (CStr (pretty index)) ;;;
        config <- dict_getitem (CObj storage_config) "lmdb" ;;
        s <- LMDBStorage_init fuel config ;;
        ret (BLMDB s)
      else
        raise (ValueError "Only in-memory dictionary and Redis are supported.").

(** ** Callers

    What a caller can do with a backend: a sequence of method calls. A
    call that raises does not end the sequence (the caller may catch the
    exception); what it wrote before raising stays written. *)

Inductive call : Type :=
  | CallKeys
  | CallSetVal (key val : string)
  | CallGetVal (key : string)
  | CallAppendVal (key : string) (val : pyval)
  | CallGetList (key : string).

Definition do_call (fuel : nat) (b : backend) (c : call) : Py unit :=
  match c with
  | CallKeys => keys b ;;; ret tt
  | CallSetVal key val => set_val b key val
  | CallGetVal key => get_val b key ;;; ret tt
  | CallAppendVal key val => append_val b key val
  | CallGetList key => get_list fuel b key ;;; ret tt
  end.

(** [try: m / except: pass] *)
Definition attempt {A} (m : Py A) : Py unit :=
  fun w => (Returned tt, (m w).2).

(** [try: r = m / except e: r = e]: the outcome of a call, as a value. *)
Definition observe {A} (m : Py A) : Py (outcome A) :=
  fun w => (Returned (m w).1, (m w).2).

Fixpoint do_calls (fuel : nat) (b : backend) (cs : list call) : Py unit :=
  match cs with
  | [] => ret tt
  | c :: rest => attempt (do_call fuel b c) ;;; do_calls fuel b rest
  end.

(** What a holder of a compressor can do with it between two calls of
    interest: [compress] any text, [decompress] any bytes. *)
Inductive zcall : Type :=
  | ZCompress (text : string)
  | ZDecompress (ctext : string).

Definition do_zcall (fuel : nat) (self : Compressor) (c : zcall) : Py unit :=
  match c with
  | ZCompress text => Compressor_compress self text ;;; ret tt
  | ZDecompress ctext => Compressor_decompress fuel self ctext ;;; ret tt
  end.

Fixpoint do_zcalls (fuel : nat) (self : Compressor) (cs : list zcall) : Py unit :=
  match cs with
  | [] => ret tt
  | c :: rest => attempt (do_zcall fuel self c) ;;; do_zcalls fuel self rest
  end.

(** [for key, val in items: b.append_val(key, val)] *)
Fixpoint append_all (b : backend) (items : list (string * pyval)) : Py unit :=
  match items with
  | [] => ret tt
  | (key, val) :: rest => append_val b key val ;;; append_all b rest
  end.

(** The call writes under [key]. *)
Definition writes (key : string) (c : call) : bool :=
  match c with
  | CallSetVal k _ | CallAppendVal k _ => bool_decide (k = key)
  | _ => false
  end.

(** The call is a [set_val] on [key]. *)
Definition sets (key : string) (c : call) : bool :=
  match c with
  | CallSetVal k _ => bool_decide (k = key)
  | _ => false
  end.

(** The values that the calls append under [key], in order. *)
Definition appended (key : string) (cs : list call) : list pyval :=
  omap (fun c => match c with
                 | CallAppendVal k v => if decide (k = key) then Some v else None
                 | _ => None
                 end) cs.

End Storage.

(** ** Vocabulary of the properties *)

Section Vocabulary.
Context {zops : ZlibOps} {jops : JsonOps} {rops : RedisOps}.

(** [w'] has the zlib objects of [w], unchanged, and maybe more. *)
Definition zlib_grows (w w' : world) : Prop :=
  w_zc w `prefix_of` w_zc w' /\ w_zd w `prefix_of` w_zd w'.

(** The stores other than the zlib objects are those of [w]. *)
Definition same_stores (w w' : world) : Prop :=
  w_dicts w' = w_dicts w /\ w_mem w' = w_mem w /\ w_redis w' = w_redis w /\
  w_lmdb w' = w_lmdb w /\ w_redis_module w' = w_redis_module w /\
  w_lmdb_module w' = w_lmdb_module w.

Definition extends (w w' : world) : Prop := zlib_grows w w' /\ same_stores w w'.

(** The deflate stream after the seed and its partial flush, and the
    bytes it has produced. *)
Definition seed_run (sd : string) : deflate_state * string :=
  deflate_run (deflateInit 9) [(sd, Z_NO_FLUSH); ("", Z_SYNC_FLUSH)].

(** What [compress] returns for [text] from a context primed with [sd]. *)
Definition compress_out (sd text : string) : string :=
  (deflate_run (seed_run sd).1 [(text, Z_NO_FLUSH); ("", Z_FINISH)]).2.

(** [self] holds the two contexts primed with [sd]. *)
Definition primed (self : Compressor) (sd : string) (w : world) : Prop :=
  exists dst,
    w_zc w !! c_context self
      = Some {| c_zst := (seed_run sd).1; c_is_initialised := true |} /\
    w_zd w !! d_context self = Some {| d_zst := dst; unconsumed_tail := "" |} /\
    inflate inflateInit (seed_run sd).2 = Some (dst, sd).

(** What [get_list] reads under [k]. *)
Definition bucket (m : gmap string pyval) (k : string) : pyval :=
  default (PList []) (m !! k).

(** The values of the items appended under [k], in order. *)
Definition values_of (k : string) (items : list (string * pyval)) : list pyval :=
  (filter (fun kv => kv.1 = k) items).*2.

(** Whatever its outcome, [m] leaves a world in which [P] still holds. *)
Definition preserves {A} (P : world -> Prop) (m : Py A) : Prop :=
  forall w, P w -> P (m w).2.

(** [P] looks at the stores only, not at the zlib objects. *)
Definition store_pred (P : world -> Prop) : Prop :=
  forall w w', same_stores w w' -> P w -> P w'.

(** Nothing is stored under [k] in the store behind [b]. *)
Definition key_absent (b : backend) (k : string) (w : world) : Prop :=
  match b with
  | BInMemory s => exists m, w_mem w !! im_storage s = Some m /\ m !! k = None
  | BRedis s => default ∅ (w_redis w !! r_storage s) !! k = None
  | BLMDB s => default ∅ (w_lmdb w !! (l_env s, l_storage s)) !! k = None
  end.

(** The backend object refers to a store of the world. *)
Definition backend_live (b : backend) (w : world) : Prop :=
  match b with
  | BInMemory s => is_Some (w_mem w !! im_storage s)
  | _ => True
  end.

(** Something is stored under [k] in the store behind [b]. *)
Definition has_key (b : backend) (w : world) (k : string) : Prop :=
  match b with
  | BInMemory s => exists m, w_mem w !! im_storage s = Some m /\ is_Some (m !! k)
  | BRedis s => is_Some (default ∅ (w_redis w !! r_storage s) !! k)
  | BLMDB s => is_Some (default ∅ (w_lmdb w !! (l_env s, l_storage s)) !! k)
  end.

(** The values stored in the sub-database of [self], by key. *)
Definition lmdb_table (self : LMDBStorage) (w : world) : gmap string (list string) :=
  default ∅ (w_lmdb w !! (l_env self, l_storage self)).



(** The keyspace of the database that the client of [self] selects. *)
Definition redis_keyspace (self : RedisStorage) (w : world) : gmap string redis_val :=
  default ∅ (w_redis w !! r_storage self).

(** Under [key] the database holds the compressed forms of the texts
    [ts], in this order (nothing, when [ts] is empty and the key is not
    there). *)
Definition redis_holds (self : RedisStorage) (w : world) (key : string)
    (ts : list string) : Prop :=
  match redis_keyspace self w !! key with
  | None => ts = []
  | Some (RList l) => l = compress_out seed <$> ts
  | Some (RString _) => False
  end.

(** The JSON text of a value that [json.dumps] accepts. *)
Definition text_of (v : pyval) : string := default "" (json_dumps v).

(** The order of LMDB on the values of a key: bytewise, a proper prefix
    first. *)
Definition bytes_lt (a b : string) : Prop := String.compare a b = Lt.

(** In the sub-database of [self], the values under [k] are sorted and
    are the compressed texts of the values [vs]. *)
Definition lmdb_holds (self : LMDBStorage) (w : world) (k : string)
    (vs : list pyval) : Prop :=
  StronglySorted bytes_lt (default [] (lmdb_table self w !! k))
  /\ forall c, c ∈ default [] (lmdb_table self w !! k) <->
       exists v t, v ∈ vs /\ json_dumps v = Some t /\ c = compress_out seed t.

(** Two backends that do not share a store: two in-memory backends with
    their own dictionaries, two Redis clients on different databases, two
    LMDB backends on different sub-databases, or backends of different
    kinds. *)
Definition disjoint_backends (b1 b2 : backend) : Prop :=
  match b1, b2 with
  | BInMemory s1, BInMemory s2 => im_storage s1 <> im_storage s2
  | BRedis s1, BRedis s2 => r_storage s1 <> r_storage s2
  | BLMDB s1, BLMDB s2 => (l_env s1, l_storage s1) <> (l_env s2, l_storage s2)
  | _, _ => True
  end.

(** The store behind [b] is in [w'] what it is in [w]. *)
Definition same_view (b : backend) (w w' : world) : Prop :=
  match b with
  | BInMemory s => w_mem w' !! im_storage s = w_mem w !! im_storage s
  | BRedis s => redis_keyspace s w' = redis_keyspace s w
  | BLMDB s => lmdb_table s w' = lmdb_table s w
  end.

End Vocabulary.

(** ** Reference instances of the library interfaces

    Small implementations on which the model runs: a stream codec that
    writes a two-byte header, every input byte behind a tag byte, a
    marker at each flush and an end marker; the JSON text of values
    whose strings are printable ASCII; a glob matcher for [*] and [?]. *)

Module Ref.

Inductive lit_inflate_state : Type := LHead0 | LHead1 | LTag | LLit | LDone.

Record lit_deflate_state : Type := {
  lit_header_done : bool;
  lit_pending : string
}.

Definition lit_header : string := String "120" (String "218" EmptyString).

Fixpoint lit_encode (s : string) : string :=
  match s with
  | EmptyString => EmptyString
  | String a r => String "001" (String a (lit_encode r))
  end.

Definition lit_deflate (st : lit_deflate_state) (x : string) (m : flush_mode)
    : lit_deflate_state * string :=
  match m with
  | Z_NO_FLUSH =>
      ({| lit_header_done := lit_header_done st;
          lit_pending := lit_pending st +:+ x |}, "")
  | _ =>
      ({| lit_header_done := true; lit_pending := "" |},
       (if lit_header_done st then "" else lit_header)
       +:+ lit_encode (lit_pending st +:+ x)
       +:+ String (if is_finish m then "002" else "000")%char EmptyString)
  end.

Fixpoint lit_inflate (st : lit_inflate_state) (s : string)
    : option (lit_inflate_state * string) :=
  match s with
  | EmptyString => Some (st, "")
  | String a r =>
      match st with
      | LHead0 => if Ascii.eqb a "120" then lit_inflate LHead1 r else None
      | LHead1 => if Ascii.eqb a "218" then lit_inflate LTag r else None
      | LTag =>
          if Ascii.eqb a "000" then lit_inflate LTag r
          else if Ascii.eqb a "001" then lit_inflate LLit r
          else if Ascii.eqb a "002" then lit_inflate LDone r
          else None
      | LLit =>
          match lit_inflate LTag r with
          | Some (st', y) => Some (st', String a y)
          | None => None
          end
      | LDone => lit_inflate LDone r
      end
  end.

#[export] Instance lit_zlib : ZlibOps := {|
  deflate_state := lit_deflate_state;
  inflate_state := lit_inflate_state;
  deflateInit := fun _ => {| lit_header_done := false; lit_pending := "" |};
  deflate := lit_deflate;
  inflateInit := LHead0;
  inflate := lit_inflate
|}.

(** Where the reader stands when it has read all that the writer has
    written. *)
Definition lit_reader (c : lit_deflate_state) : lit_inflate_state :=
  if lit_header_done c then LTag else LHead0.

Definition dquote : string := String "034" EmptyString.

Definition printable (a : ascii) : bool :=
  let n := nat_of_ascii a in
  (32 <=? n)%nat && (n <=? 126)%nat.

Fixpoint json_escape (s : string) : option string :=
  match s with
  | EmptyString => Some ""
  | String a r =>
      match json_escape r with
      | Some r' =>
          if Ascii.eqb a "034" || Ascii.eqb a "092" then Some (String "092" (String a r'))
          else if printable a then Some (String a r')
          else None
      | None => None
      end
  end.

Definition json_string (s : string) : option string :=
  match json_escape s with
  | Some e => Some (dquote +:+ e +:+ dquote)
  | None => None
  end.

Fixpoint join_items (items : list (option string)) : option string :=
  match items with
  | [] => Some ""
  | [x] => x
  | x :: rest =>
      match x, join_items rest with
      | Some a, Some b => Some (a +:+ ", " +:+ b)
      | _, _ => None
      end
  end.

Fixpoint json_text (v : pyval) : option string :=
  match v with
  | PNone => Some "null"
  | PBool true => Some "true"
  | PBool false => Some "false"
  | PInt z => Some (pretty z)
  | PStr s => json_string s
  | PList l =>
      match join_items (List.map json_text l) with
      | Some body => Some ("[" +:+ body +:+ "]")
      | None => None
      end
  | PDict d =>
      match join_items (List.map (fun kv =>
              match json_string (fst kv), json_text (snd kv) with
              | Some k, Some x => Some (k +:+ ": " +:+ x)
              | _, _ => None
              end) d) with
      | Some body => Some ("{" +:+ body +:+ "}")
      | None => None
      end
  end.

#[export] Instance ascii_json : JsonOps := {| json_dumps := json_text |}.

Fixpoint glob (p s : string) : bool :=
  match p with
  | EmptyString => match s with EmptyString => true | _ => false end
  | String c p' =>
      if Ascii.eqb c "*" then
        (fix star (s : string) : bool :=
           glob p' s || match s with
                        | EmptyString => false
                        | String _ s' => star s'
                        end) s
      else
        match s with
        | EmptyString => false
        | String a s' => (Ascii.eqb c "?" || Ascii.eqb c a) && glob p' s'
        end
  end.

#[export] Instance glob_redis : RedisOps := {| stringmatch := glob |}.

(** A world with nothing in it, both client libraries installed. *)
Definition empty_world : world := {|
  w_zc := []; w_zd := []; w_dicts := []; w_mem := [];
  w_redis := ∅; w_lmdb := ∅;
  w_redis_module := true; w_lmdb_module := true
|}.

(** Configurations, as dictionaries of a world: at 0 one that names both
    the in-memory and the Redis backend, at 3 one for Redis, at 4 one
    for LMDB, at 6 one for the in-memory backend; at 1, 2 and 5 the
    dictionaries they hold for the backends. *)
Definition config_world : world := {|
  w_zc := []; w_zd := [];
  w_dicts := [ {[ "dict" := CObj 1%nat; "redis" := CObj 2%nat ]};
               ∅;
               {[ "host" := CStr "localhost" ]};
               {[ "redis" := CObj 2%nat ]};
               {[ "lmdb" := CObj 5%nat ]};
               {[ "path" := CStr "/tmp/testlmdb" ]};
               {[ "dict" := CObj 1%nat ]} ];
  w_mem := [];
  w_redis := ∅; w_lmdb := ∅;
  w_redis_module := true; w_lmdb_module := true
|}.

(** The value of scenario B and its JSON text. *)
Definition scenario_B_value : pyval :=
  PDict [("id", PStr "a"); ("vec", PList [PInt 1; PInt 2; PInt 3])].

Definition scenario_B_text : string :=
  Eval vm_compute in default "" (json_text scenario_B_value).

(** The backends that the factory builds from the configurations at 6,
    3 and 4, the index being 7. *)
Definition mem_backend : InMemoryStorage :=
  {| im_name := "dict"; im_storage := 0%nat |}.

Definition redis_backend : RedisStorage :=
  {| r_name := "redis"; r_storage := 7;
     r_c := {| c_context := 1%nat; d_context := 1%nat |} |}.

Definition lmdb_backend : LMDBStorage :=
  {| l_name := "lmdb"; l_env := "/tmp/testlmdb"; l_storage := "7";
     l_c := {| c_context := 1%nat; d_context := 1%nat |} |}.

(** [config_world] when neither client library is installed. *)
Definition no_client_world : world := {|
  w_zc := []; w_zd := [];
  w_dicts := w_dicts config_world;
  w_mem := [];
  w_redis := ∅; w_lmdb := ∅;
  w_redis_module := false; w_lmdb_module := false
|}.

(** The worlds that the factory leaves when it builds the Redis and the
    LMDB backend of [config_world], and a second Redis backend built
    there from the same configuration. *)
Definition redis_world : world := (storage 0 3 7 config_world).2.

Definition lmdb_world : world := (storage 0 4 7 config_world).2.


(** The LMDB backend built once [lmdb_backend] has appended twice. *)
Definition lmdb_backend2 : LMDBStorage :=
  {| l_name := "lmdb"; l_env := "/tmp/testlmdb"; l_storage := "7";
     l_c := {| c_context := 5%nat; d_context := 3%nat |} |}.

(** The world that the factory leaves when it builds the in-memory
    backend of [config_world]. *)
Definition mem_world : world := (storage 0 6 7 config_world).2.


(** [mem_world] and [redis_world] once the backend has stored a string
    under ["a"] and a list under ["b"]. *)
Definition mem_used_world : world :=
  (do_calls 0 (BInMemory mem_backend)
     [CallSetVal "a" "x"; CallAppendVal "b" (PInt 1)] mem_world).2.

Definition redis_used_world : world :=
  (do_calls 0 (BRedis redis_backend)
     [CallSetVal "a" "x"; CallAppendVal "b" (PInt 1)] redis_world).2.

End Ref.

(** * Properties *)

(** ** Strings and stores *)

Lemma str_app_assoc (a b c : string) : (a +:+ b) +:+ c = a +:+ (b +:+ c).
Proof.
  induction a as [|x a IH]; [reflexivity|].
  change (String x ((a +:+ b) +:+ c) = String x (a +:+ (b +:+ c))).
  by rewrite IH.
Qed.

Lemma str_app_nil_r (a : string) : a +:+ "" = a.
Proof.
  induction a as [|x a IH]; [reflexivity|].
  change (String x (a +:+ "") = String x a). by rewrite IH.
Qed.

Lemma str_app_nil_l (a : string) : "" +:+ a = a.
Proof. reflexivity. Qed.

Lemma lookup_snoc {A} (l : list A) (x : A) : (l ++ [x]) !! List.length l = Some x.
Proof. by apply list_lookup_middle. Qed.

Lemma insert_snoc {A} (l : list A) (x y : A) :
  <[List.length l := y]> (l ++ [x]) = l ++ [y].
Proof.
  induction l as [|a l IH]; [reflexivity|]. simpl. by rewrite IH.
Qed.

Lemma lookup_prefix {A} (l l' : list A) (i : nat) (x : A) :
  l `prefix_of` l' -> l !! i = Some x -> l' !! i = Some x.
Proof. intros [k ->] Hi. by apply lookup_app_l_Some. Qed.

Section Proofs.
Context {zops : ZlibOps} {zlaws : ZlibLaws zops}.
Context {jops : JsonOps}.
Context {rops : RedisOps} {rlaws : RedisLaws rops}.

Lemma extends_refl (w : world) : extends w w.
Proof. by repeat split. Qed.

Lemma extends_trans (w1 w2 w3 : world) :
  extends w1 w2 -> extends w2 w3 -> extends w1 w3.
Proof.
  intros [[? ?] (?&?&?&?&?&?)] [[? ?] (?&?&?&?&?&?)].
  repeat split; try (etrans; eassumption).
Qed.

Lemma bind_returned {A B} (m : Py A) (k : A -> Py B) (w w1 : world) (a : A) :
  m w = (Returned a, w1) -> bind m k w = k a w1.
Proof. intros H. unfold bind. by rewrite H. Qed.

Lemma bind_raised {A B} (m : Py A) (k : A -> Py B) (w w1 : world) (e : exn) :
  m w = (Raised e, w1) -> bind m k w = (Raised e, w1).
Proof. intros H. unfold bind. by rewrite H. Qed.

Lemma primed_extends (self : Compressor) (sd : string) (w w' : world) :
  zlib_grows w w' -> primed self sd w -> primed self sd w'.
Proof.
  intros [Hc Hd] (dst & H1 & H2 & H3). exists dst.
  split_and!; eauto using lookup_prefix.
Qed.

Lemma deflate_run_app (st : deflate_state) (a b : list (string * flush_mode)) :
  deflate_run st (a ++ b) =
    let '(st1, o1) := deflate_run st a in
    let '(st2, o2) := deflate_run st1 b in
    (st2, o1 +:+ o2).
Proof.
  revert st. induction a as [|[x m] a IH]; intros st; simpl.
  - by destruct (deflate_run st b).
  - destruct (deflate st x m) as [st1 o1]. rewrite IH.
    destruct (deflate_run st1 a) as [st2 o2].
    destruct (deflate_run st2 b) as [st3 o3].
    by rewrite str_app_assoc.
Qed.

(** The seed's bytes inflate to the seed. *)
Lemma inflate_seed (sd : string) :
  exists dst, inflate inflateInit (seed_run sd).2 = Some (dst, sd).
Proof.
  destruct (inflate_deflate 9 [(sd, Z_NO_FLUSH); ("", Z_SYNC_FLUSH)] eq_refl)
    as [dst H].
  exists dst. unfold seed_run. rewrite H. simpl plain_of.
  by rewrite !str_app_nil_r.
Qed.

(** From the primed inflate context, what [compress] produced inflates
    to the text. *)
Lemma inflate_compress_out (sd text : string) (dst : inflate_state) :
  inflate inflateInit (seed_run sd).2 = Some (dst, sd) ->
  exists dst', inflate dst (compress_out sd text) = Some (dst', text).
Proof.
  intros Hseed.
  destruct (inflate_deflate 9
    ([(sd, Z_NO_FLUSH); ("", Z_SYNC_FLUSH)] ++ [(text, Z_NO_FLUSH); ("", Z_FINISH)])
    eq_refl) as [dst' H].
  rewrite deflate_run_app in H. fold (seed_run sd) in H.
  unfold compress_out.
  destruct (seed_run sd) as [cst o] eqn:Hrun. cbn [fst snd] in *.
  destruct (deflate_run cst [(text, Z_NO_FLUSH); ("", Z_FINISH)]) as [cst' o'] eqn:Hrun'.
  cbn [fst snd] in *. rewrite inflate_app, Hseed in H.
  destruct (inflate dst o') as [[dst2 y]|] eqn:Hinf; [|discriminate].
  exists dst2. f_equal. f_equal.
  injection H as _ H. simpl plain_of in H.
  rewrite !str_app_nil_r, !str_app_nil_l in H.
  by apply (inj (String.app sd)) in H.
Qed.

(** ** The compressor *)

Ltac py_unfold :=
  unfold bind, gets, modify, ret, raise, out_of_fuel,
    set_zc, set_zd, set_dicts, set_mem, set_redis, set_lmdb.

Ltac heap_simpl :=
  simpl;
  repeat match goal with
    | |- context [ <[List.length ?l := ?y]> (?l ++ [?x]) ] =>
        rewrite (insert_snoc l x y)
    | |- context [ (?l ++ [?x]) !! List.length ?l ] =>
        rewrite (lookup_snoc l x); simpl
    end.

(** Run the first call of a sequence, [tac] computing what it returns. *)
Ltac py_step tac :=
  match goal with
  | |- context [bind ?m ?k ?w] =>
      let H := fresh "Hstep" in
      eassert (m w = (Returned _, _)) as H by tac;
      rewrite (bind_returned m k w _ _ H); clear H
  end.

(** [compress] works on a copy: the result depends on the seed and the
    text alone, and the contexts stay as they were. *)
Lemma Compressor_compress_spec (self : Compressor) (sd text : string) (w : world) :
  primed self sd w ->
  exists w', Compressor_compress self text w = (Returned (compress_out sd text), w')
             /\ extends w w'.
Proof.
  intros (dst & Hc & Hd & Hinf). destruct w; simpl in *.
  unfold Compressor_compress, Compress_copy, Compress_compress, Compress_flush,
    Compress_deref, compress_out.
  py_unfold. simpl. rewrite Hc. heap_simpl.
  destruct (deflate (seed_run sd).1 text Z_NO_FLUSH) as [st1 o1].
  heap_simpl.
  destruct (deflate st1 "" Z_FINISH) as [st2 o2]. heap_simpl.
  rewrite str_app_nil_r.
  eexists. split; [reflexivity|].
  repeat split; simpl; try done. by apply prefix_app_r.
Qed.

(** [drain] does not loop on an object whose [unconsumed_tail] is
    empty: any fuel is enough. *)
Lemma drain_empty_tail (fuel d : nat) (t : string) (w : world) (st : inflate_state) :
  w_zd w !! d = Some {| d_zst := st; unconsumed_tail := "" |} ->
  drain fuel d t w = (Returned t, w).
Proof.
  intros H. destruct fuel; simpl; unfold Decompress_deref; py_unfold;
    by rewrite H.
Qed.

Lemma Compressor_decompress_spec (fuel : nat) (self : Compressor)
    (sd text : string) (w : world) :
  primed self sd w ->
  exists w', Compressor_decompress fuel self (compress_out sd text) w
               = (Returned text, w')
             /\ extends w w'.
Proof.
  intros (dst & Hc & Hd & Hinf).
  destruct (inflate_compress_out sd text dst Hinf) as [dst' Hout].
  destruct w; simpl in *.
  unfold Compressor_decompress.
  py_step ltac:(unfold Decompress_copy, Decompress_deref; py_unfold; simpl;
          rewrite Hd; reflexivity).
  py_step ltac:(unfold Decompress_decompress, Decompress_deref; py_unfold; heap_simpl;
          rewrite Hout; heap_simpl; reflexivity).
  rewrite (drain_empty_tail _ _ _ _ dst') by (simpl; apply lookup_snoc).
  eexists. split; [reflexivity|].
  repeat split; simpl; try done. by apply prefix_app_r.
Qed.

(** The constructor returns, whatever the fuel, and leaves a primed
    compressor; objects that were there are not touched. *)
Lemma Compressor_init_spec (fuel : nat) (sd : string) (w : world) :
  exists self w', Compressor_init fuel sd w = (Returned self, w')
                  /\ primed self sd w' /\ extends w w'.
Proof.
  destruct (inflate_seed sd) as [dst Hinf].
  unfold primed, Compressor_init, seed_run in *. simpl deflate_run in *.
  destruct (deflate (deflateInit 9) sd Z_NO_FLUSH) as [st1 o1] eqn:E1.
  destruct (deflate st1 "" Z_SYNC_FLUSH) as [st2 o2] eqn:E2.
  cbn [fst snd] in *. rewrite str_app_nil_r in Hinf.
  destruct w as [zc zd ds mem rd lm hr hl].
  py_step ltac:(unfold compressobj; py_unfold; simpl; reflexivity).
  py_step ltac:(unfold Compress_compress, Compress_deref; py_unfold; heap_simpl;
          rewrite E1; heap_simpl; reflexivity).
  py_step ltac:(unfold Compress_flush, Compress_deref; py_unfold; heap_simpl;
          rewrite E2; heap_simpl; reflexivity).
  py_step ltac:(unfold Compress_copy, Compress_deref; py_unfold; heap_simpl;
          reflexivity).
  py_step ltac:(unfold decompressobj; py_unfold; simpl; reflexivity).
  py_step ltac:(unfold Decompress_decompress, Decompress_deref; py_unfold; heap_simpl;
          rewrite Hinf; heap_simpl; reflexivity).
  py_step ltac:(apply (drain_empty_tail _ _ _ _ dst); simpl; apply lookup_snoc).
  py_step ltac:(unfold Decompress_copy, Decompress_deref; py_unfold; heap_simpl;
          reflexivity).
  unfold ret. eexists _, _. split; [reflexivity|]. simpl. split.
  - exists dst. rewrite str_app_nil_r.
    split_and!; [apply lookup_snoc | apply lookup_snoc | done].
  - repeat split; simpl; try done;
      rewrite <- app_assoc; by apply prefix_app_r.
Qed.

Lemma extends_of_fields (w w' : world) :
  w_zc w `prefix_of` w_zc w' -> w_zd w `prefix_of` w_zd w' ->
  w_dicts w' = w_dicts w -> w_mem w' = w_mem w -> w_redis w' = w_redis w ->
  w_lmdb w' = w_lmdb w -> w_redis_module w' = w_redis_module w ->
  w_lmdb_module w' = w_lmdb_module w -> extends w w'.
Proof. by repeat split. Qed.

(** The draining loop works on the object it is given, here the last one
    of the store, and on nothing else. *)
Lemma drain_on_last (fuel : nat) :
  forall (t : string) (w : world) (zd0 : list DecompressObj) (obj : DecompressObj),
    w_zd w = zd0 ++ [obj] ->
    exists obj',
      w_zd (drain fuel (List.length zd0) t w).2 = zd0 ++ [obj']
      /\ w_zc (drain fuel (List.length zd0) t w).2 = w_zc w
      /\ same_stores w (drain fuel (List.length zd0) t w).2.
Proof.
  induction fuel as [|fuel IH]; intros t w zd0 obj Hzd; destruct w; simpl in *;
    subst; unfold Decompress_deref; py_unfold; heap_simpl.
  - exists obj. by destruct (unconsumed_tail obj).
  - destruct (unconsumed_tail obj) as [|a tl] eqn:Htl; [by exists obj|].
    unfold Decompress_decompress, Decompress_deref. py_unfold. heap_simpl.
    destruct (inflate (d_zst obj) (String a tl)) as [[st out]|]; heap_simpl;
      [|by exists obj].
    match goal with
    | |- context [drain fuel _ ?t' ?w'] =>
        destruct (IH t' w' zd0 {| d_zst := st; unconsumed_tail := "" |} eq_refl)
          as (obj' & H1 & H2 & H3)
    end.
    exists obj'. split_and!; [exact H1|exact H2|exact H3].
Qed.

(** [compress] and [decompress] only add zlib objects, whatever they are
    called with and whatever the outcome. *)
Lemma Compressor_calls_extend
    (fuel : nat) (self : Compressor) (text ctext : string) (w : world) :
  extends w (Compressor_compress self text w).2
  /\ extends w (Compressor_decompress fuel self ctext w).2.
Proof.
  split.
  - destruct w as [zc zd ds mem rd lm hr hl].
    unfold Compressor_compress, Compress_copy, Compress_compress, Compress_flush,
      Compress_deref.
    py_unfold. simpl.
    destruct (zc !! c_context self) as [obj|]; simpl; [|apply extends_refl].
    destruct (c_is_initialised obj) eqn:Hinit; simpl; [|apply extends_refl].
    heap_simpl. rewrite Hinit.
    destruct (deflate (c_zst obj) text Z_NO_FLUSH) as [st1 o1]. heap_simpl.
    destruct (deflate st1 "" Z_FINISH) as [st2 o2]. heap_simpl.
    apply extends_of_fields; simpl; try done. by apply prefix_app_r.
  - unfold Compressor_decompress.
    destruct (w_zd w !! d_context self) as [obj|] eqn:Hd; cycle 1.
    { rewrite (bind_raised _ _ w w SystemError); [apply extends_refl|].
      unfold Decompress_copy, Decompress_deref. py_unfold. by rewrite Hd. }
    set (w1 := set_zd (fun h => h ++ [obj]) w).
    assert (extends w w1) as X1.
    { apply extends_of_fields; simpl; try done. by apply prefix_app_r. }
    rewrite (bind_returned _ _ w w1 (List.length (w_zd w)))
      by (unfold Decompress_copy, Decompress_deref; py_unfold; by rewrite Hd).
    assert (w_zd w1 !! List.length (w_zd w) = Some obj) as Hl by apply lookup_snoc.
    destruct (inflate (d_zst obj) ctext) as [[st out]|] eqn:Hinf; cycle 1.
    { rewrite (bind_raised _ _ w1 w1 zlib_error); [exact X1|].
      unfold Decompress_decompress, Decompress_deref. py_unfold.
      rewrite Hl. simpl. by rewrite Hinf. }
    set (w2 := set_zd (fun h => <[List.length (w_zd w) :=
                 {| d_zst := st; unconsumed_tail := "" |}]> h) w1).
    rewrite (bind_returned _ _ w1 w2 out)
      by (unfold Decompress_decompress, Decompress_deref; py_unfold;
          rewrite Hl; simpl; by rewrite Hinf).
    destruct (drain_on_last fuel out w2 (w_zd w)
                {| d_zst := st; unconsumed_tail := "" |})
      as (obj' & H1 & H2 & (?&?&?&?&?&?)).
    { simpl. apply insert_snoc. }
    apply extends_of_fields; simpl in *; try congruence.
    + by rewrite H2.
    + rewrite H1. by apply prefix_app_r.
Qed.

(** ** C1 and C8: the compressor round trip and its determinism *)

(** A sequence of calls on a compressor runs to its end, however each call
    ends, and only adds zlib objects. *)
Lemma do_zcalls_spec (fuel : nat) (self : Compressor) (cs : list zcall) (w : world) :
  exists w', do_zcalls fuel self cs w = (Returned tt, w') /\ extends w w'.
Proof.
  revert w. induction cs as [|c cs IH]; intros w.
  - exists w. split; [done | apply extends_refl].
  - set (w1 := (do_zcall fuel self c w).2).
    assert (extends w w1) as X1.
    { destruct (Compressor_calls_extend fuel self
                  (match c with ZCompress t => t | _ => "" end)
                  (match c with ZDecompress t => t | _ => "" end) w) as [Xc Xd].
      subst w1. destruct c as [t|t]; unfold do_zcall, bind, ret.
      - by destruct (Compressor_compress self t w) as [[?|?|] ?].
      - by destruct (Compressor_decompress fuel self t w) as [[?|?|] ?]. }
    destruct (IH w1) as (w2 & E2 & X2).
    exists w2. split; [|by apply (extends_trans w w1 w2)].
    simpl. by rewrite (bind_returned _ _ w w1 tt).
Qed.

(** C1. For every seed and every text, decompressing what [compress]
    returned gives the text back, with the compressor that produced it
    and with any other compressor built from the same seed, and again
    when the same bytes are decompressed a second time. The compressors
    are used ones: each has served any number of earlier calls
    ([before1], [before2]), of [compress] on any text and of [decompress]
    on any bytes, failing or not, and serves more ([between1], [between2])
    between the [compress] and the [decompress]. Every call returns,
    whatever fuel the draining loops are given. *)
Theorem compress_decompress_round_trip
    (fuel1 fuel2 fuel3 fuel4 fuel5 : nat) (sd text : string)
    (before1 before2 between1 between2 : list zcall) (w : world) :
  ((c1 <- Compressor_init fuel1 sd ;;
    c2 <- Compressor_init fuel2 sd ;;
    do_zcalls fuel5 c1 before1 ;;;
    do_zcalls fuel5 c2 before2 ;;;
    ctext <- Compressor_compress c1 text ;;
    do_zcalls fuel5 c1 between1 ;;;
    do_zcalls fuel5 c2 between2 ;;;
    t1 <- Compressor_decompress fuel3 c1 ctext ;;
    t2 <- Compressor_decompress fuel4 c2 ctext ;;
    t3 <- Compressor_decompress fuel3 c1 ctext ;;
    ret (t1, t2, t3)) w).1 = Returned (text, text, text).
Proof.
  destruct (Compressor_init_spec fuel1 sd w) as (c1 & w1 & E1 & P1 & X1).
  destruct (Compressor_init_spec fuel2 sd w1) as (c2 & w2 & E2 & P2 & X2).
  apply (primed_extends _ _ _ _ (proj1 X2)) in P1.
  destruct (do_zcalls_spec fuel5 c1 before1 w2) as (w3 & E3 & X3).
  apply (primed_extends _ _ _ _ (proj1 X3)) in P1, P2.
  destruct (do_zcalls_spec fuel5 c2 before2 w3) as (w4 & E4 & X4).
  apply (primed_extends _ _ _ _ (proj1 X4)) in P1, P2.
  destruct (Compressor_compress_spec c1 sd text w4 P1) as (w5 & E5 & X5).
  apply (primed_extends _ _ _ _ (proj1 X5)) in P1, P2.
  destruct (do_zcalls_spec fuel5 c1 between1 w5) as (w6 & E6 & X6).
  apply (primed_extends _ _ _ _ (proj1 X6)) in P1, P2.
  destruct (do_zcalls_spec fuel5 c2 between2 w6) as (w7 & E7 & X7).
  apply (primed_extends _ _ _ _ (proj1 X7)) in P1, P2.
  destruct (Compressor_decompress_spec fuel3 c1 sd text w7 P1) as (w8 & E8 & X8).
  apply (primed_extends _ _ _ _ (proj1 X8)) in P1, P2.
  destruct (Compressor_decompress_spec fuel4 c2 sd text w8 P2) as (w9 & E9 & X9).
  apply (primed_extends _ _ _ _ (proj1 X9)) in P1, P2.
  destruct (Compressor_decompress_spec fuel3 c1 sd text w9 P1) as (w10 & E10 & X10).
  rewrite (bind_returned _ _ _ _ _ E1), (bind_returned _ _ _ _ _ E2),
    (bind_returned _ _ _ _ _ E3), (bind_returned _ _ _ _ _ E4),
    (bind_returned _ _ _ _ _ E5), (bind_returned _ _ _ _ _ E6),
    (bind_returned _ _ _ _ _ E7), (bind_returned _ _ _ _ _ E8),
    (bind_returned _ _ _ _ _ E9), (bind_returned _ _ _ _ _ E10).
  reflexivity.
Qed.

(** C8. For a fixed seed and every input, [compress] gives the same
    bytes when it is called twice on one compressor, when it is called on
    two compressors built from the same seed, and when the compressor is
    built in another world (a fresh process). [deflate] being a function
    of the stream state and its input, what is proved is that no call
    changes the primed context it starts from. *)
Theorem compress_deterministic
    (fuel1 fuel2 fuel3 : nat) (sd x : string) (w w' : world) :
  exists out : string,
    ((c <- Compressor_init fuel1 sd ;;
      a <- Compressor_compress c x ;;
      b <- Compressor_compress c x ;;
      ret (a, b)) w).1 = Returned (out, out)
    /\ ((c1 <- Compressor_init fuel1 sd ;;
         c2 <- Compressor_init fuel2 sd ;;
         a <- Compressor_compress c1 x ;;
         b <- Compressor_compress c2 x ;;
         ret (a, b)) w).1 = Returned (out, out)
    /\ ((c <- Compressor_init fuel3 sd ;;
         Compressor_compress c x) w').1 = Returned out.
Proof.
  exists (compress_out sd x).
  destruct (Compressor_init_spec fuel1 sd w) as (c1 & w1 & E1 & P1 & X1).
  destruct (Compressor_init_spec fuel2 sd w1) as (c2 & w2 & E2 & P2 & X2).
  destruct (Compressor_init_spec fuel3 sd w') as (c3 & w3 & E3 & P3 & X3).
  split_and!.
  - destruct (Compressor_compress_spec c1 sd x w1 P1) as (wa & Ea & Xa).
    pose proof (primed_extends _ _ _ _ (proj1 Xa) P1) as P1'.
    destruct (Compressor_compress_spec c1 sd x wa P1') as (wb & Eb & Xb).
    by rewrite (bind_returned _ _ _ _ _ E1), (bind_returned _ _ _ _ _ Ea),
      (bind_returned _ _ _ _ _ Eb).
  - pose proof (primed_extends _ _ _ _ (proj1 X2) P1) as P1'.
    destruct (Compressor_compress_spec c1 sd x w2 P1') as (wa & Ea & Xa).
    pose proof (primed_extends _ _ _ _ (proj1 Xa) P2) as P2'.
    destruct (Compressor_compress_spec c2 sd x wa P2') as (wb & Eb & Xb).
    by rewrite (bind_returned _ _ _ _ _ E1), (bind_returned _ _ _ _ _ E2),
      (bind_returned _ _ _ _ _ Ea), (bind_returned _ _ _ _ _ Eb).
  - destruct (Compressor_compress_spec c3 sd x w3 P3) as (wa & Ea & Xa).
    by rewrite (bind_returned _ _ _ _ _ E3), Ea.
Qed.

(** ** C6: the in-memory backend keeps append order *)

Lemma bucket_insert (m : gmap string pyval) (k k' : string) (v : pyval) :
  bucket (<[k := v]> m) k' = if decide (k = k') then v else bucket m k'.
Proof. unfold bucket. rewrite lookup_insert. by case_decide. Qed.

Lemma InMemoryStorage_append_val_spec (self : InMemoryStorage) (k : string)
    (v : pyval) (w : world) (m : gmap string pyval) (l : list pyval) :
  w_mem w !! im_storage self = Some m ->
  bucket m k = PList l ->
  exists w',
    InMemoryStorage_append_val self k v w = (Returned tt, w')
    /\ w_mem w' !! im_storage self = Some (<[k := PList (l ++ [v])]> m).
Proof.
  intros Hm Hb. unfold InMemoryStorage_append_val, mem_deref. py_unfold.
  rewrite Hm. simpl. unfold bucket in Hb. rewrite Hb.
  eexists. split; [reflexivity|]. simpl.
  by rewrite list_lookup_alter_eq, Hm.
Qed.

Lemma append_all_in_memory (self : InMemoryStorage) (items : list (string * pyval)) :
  forall (w : world) (m : gmap string pyval),
    w_mem w !! im_storage self = Some m ->
    (forall k, exists l, bucket m k = PList l) ->
    exists w' m',
      append_all (BInMemory self) items w = (Returned tt, w')
      /\ w_mem w' !! im_storage self = Some m'
      /\ forall k l, bucket m k = PList l ->
                     bucket m' k = PList (l ++ values_of k items).
Proof.
  induction items as [|[key val] rest IH]; intros w m Hm Hall.
  - exists w, m. split_and!; [done..|]. intros k l Hk.
    unfold values_of. simpl. by rewrite app_nil_r.
  - destruct (Hall key) as [l0 Hl0].
    destruct (InMemoryStorage_append_val_spec self key val w m l0 Hm Hl0)
      as (w1 & E1 & Hm1).
    destruct (IH w1 _ Hm1) as (w' & m' & E & Hm' & Hb).
    { intros k. rewrite bucket_insert. case_decide; eauto. }
    exists w', m'. split_and!; [|done|].
    + simpl. by rewrite (bind_returned _ _ _ _ _ E1).
    + intros k l Hk. unfold values_of. rewrite filter_cons. simpl.
      case_decide as Hkey.
      * subst key. rewrite Hk in Hl0. injection Hl0 as <-.
        rewrite (Hb k (l ++ [val])); [|rewrite bucket_insert; by case_decide].
        simpl. by rewrite <- app_assoc.
      * apply Hb. rewrite bucket_insert. by case_decide.
Qed.

(** C6. On a new in-memory backend, after any sequence of [append_val]
    calls, [get_list(k)] returns the values appended under [k], in the
    order of the calls. *)
Theorem in_memory_append_order
    (fuel : nat) (config : cfgval) (items : list (string * pyval))
    (k : string) (w : world) :
  ((s <- InMemoryStorage_init config ;;
    append_all (BInMemory s) items ;;;
    get_list fuel (BInMemory s) k) w).1
  = Returned (PList (values_of k items)).
Proof.
  unfold InMemoryStorage_init.
  set (self := {| im_name := "dict"; im_storage := List.length (w_mem w) |}).
  set (w0 := set_mem (fun h => h ++ [∅]) w).
  assert (w_mem w0 !! im_storage self = Some ∅) as Hm by apply lookup_snoc.
  destruct (append_all_in_memory self items w0 ∅ Hm) as (w' & m' & E & Hm' & Hb).
  { intros k'. by exists []. }
  change (((append_all (BInMemory self) items ;;;
            get_list fuel (BInMemory self) k) w0).1
          = Returned (PList (values_of k items))).
  rewrite (bind_returned _ _ _ _ _ E). simpl.
  unfold InMemoryStorage_get_list, mem_deref. py_unfold. rewrite Hm'. simpl.
  f_equal. by apply (Hb k []).
Qed.

Lemma do_calls_returns (fuel : nat) (b : backend) (cs : list call) (w : world) :
  (do_calls fuel b cs w).1 = Returned tt.
Proof.
  revert w. induction cs as [|c cs IH]; intros w; [done|].
  simpl. unfold bind, attempt. apply IH.
Qed.

Lemma do_call_in_memory_bucket (fuel : nat) (self : InMemoryStorage) (c : call)
    (k : string) (w : world) (m : gmap string pyval) (l : list pyval) :
  w_mem w !! im_storage self = Some m ->
  bucket m k = PList l ->
  sets k c = false ->
  exists m',
    w_mem (do_call fuel (BInMemory self) c w).2 !! im_storage self = Some m'
    /\ bucket m' k = PList (l ++ appended k [c]).
Proof.
  intros Hm Hb Hs. unfold appended.
  destruct c as [|key val|key|key val|key]; simpl in *.
  - exists m. rewrite app_nil_r.
    unfold InMemoryStorage_keys, mem_deref. py_unfold. by rewrite Hm.
  - apply bool_decide_eq_false in Hs. exists (<[key := PStr val]> m).
    rewrite app_nil_r. unfold InMemoryStorage_set_val, mem_deref. py_unfold.
    rewrite Hm. simpl. rewrite list_lookup_alter_eq, Hm. split; [done|].
    rewrite bucket_insert. by case_decide.
  - exists m. rewrite app_nil_r.
    unfold InMemoryStorage_get_val, mem_deref. py_unfold. rewrite Hm. simpl.
    by destruct (m !! key).
  - case_decide as Hk.
    + subst key.
      destruct (InMemoryStorage_append_val_spec self k val w m l Hm Hb)
        as (w' & E & Hm').
      rewrite E. exists (<[k := PList (l ++ [val])]> m). split; [done|].
      rewrite bucket_insert. by case_decide.
    + rewrite app_nil_r.
      destruct (bucket m key) as [| | | |l'|] eqn:Hkey.
      5: { destruct (InMemoryStorage_append_val_spec self key val w m l' Hm Hkey)
             as (w' & E & Hm').
           rewrite E. eexists. split; [exact Hm'|].
           rewrite bucket_insert. by case_decide. }
      all: exists m; unfold InMemoryStorage_append_val, mem_deref; py_unfold;
        rewrite Hm; simpl; unfold bucket in Hkey; by rewrite Hkey.
  - exists m. rewrite app_nil_r.
    unfold InMemoryStorage_get_list, mem_deref. py_unfold. by rewrite Hm.
Qed.

Lemma do_calls_in_memory_bucket (fuel : nat) (self : InMemoryStorage)
    (k : string) (cs : list call) :
  forall (w : world) (m : gmap string pyval) (l : list pyval),
    w_mem w !! im_storage self = Some m ->
    bucket m k = PList l ->
    forallb (fun c => negb (sets k c)) cs = true ->
    exists m',
      w_mem (do_calls fuel (BInMemory self) cs w).2 !! im_storage self = Some m'
      /\ bucket m' k = PList (l ++ appended k cs).
Proof.
  induction cs as [|c cs IH]; intros w m l Hm Hb Hcs.
  - exists m. by rewrite app_nil_r.
  - simpl in Hcs. apply andb_true_iff in Hcs as [Hc Hcs].
    apply negb_true_iff in Hc.
    destruct (do_call_in_memory_bucket fuel self c k w m l Hm Hb Hc)
      as (m1 & Hm1 & Hb1).
    destruct (IH _ m1 _ Hm1 Hb1 Hcs) as (m' & Hm' & Hb').
    exists m'. split; [exact Hm'|]. rewrite Hb'. f_equal.
    rewrite <- app_assoc. f_equal.
    change (c :: cs) with ([c] ++ cs). unfold appended. by rewrite omap_app.
Qed.

(** X10. In-memory append order among other calls. On a new in-memory
    backend, whatever calls are made in whatever order, as long as none
    is [set_val] on [k], [get_list(k)] returns the values that the
    [append_val] calls on [k] appended, in the order of the calls. *)
Lemma in_memory_append_order_interleaved
    (fuel : nat) (config : cfgval) (cs : list call) (k : string) (w : world) :
  forallb (fun c => negb (sets k c)) cs = true ->
  ((s <- InMemoryStorage_init config ;;
    do_calls fuel (BInMemory s) cs ;;;
    get_list fuel (BInMemory s) k) w).1
  = Returned (PList (appended k cs)).
Proof.
  intros Hcs. unfold InMemoryStorage_init.
  set (self := {| im_name := "dict"; im_storage := List.length (w_mem w) |}).
  set (w0 := set_mem (fun h => h ++ [∅]) w).
  assert (w_mem w0 !! im_storage self = Some ∅) as Hm by apply lookup_snoc.
  destruct (do_calls_in_memory_bucket fuel self k cs w0 ∅ [] Hm eq_refl Hcs)
    as (m' & Hm' & Hb').
  change (((do_calls fuel (BInMemory self) cs ;;;
            get_list fuel (BInMemory self) k) w0).1
          = Returned (PList (appended k cs))).
  pose proof (do_calls_returns fuel (BInMemory self) cs w0) as Hret.
  unfold bind. destruct (do_calls fuel (BInMemory self) cs w0) as [r w1].
  cbn [fst snd] in *. subst r. cbn [get_list].
  unfold InMemoryStorage_get_list, mem_deref. py_unfold. rewrite Hm'. simpl.
  by f_equal.
Qed.

(** ** What a call leaves in place *)

Lemma preserves_ret {A} (P : world -> Prop) (a : A) : preserves P (ret a).
Proof. by intros w H. Qed.

Lemma preserves_raise {A} (P : world -> Prop) (e : exn) : preserves P (@raise _ A e).
Proof. by intros w H. Qed.

Lemma preserves_out_of_fuel {A} (P : world -> Prop) : preserves P (@out_of_fuel _ A).
Proof. by intros w H. Qed.

Lemma preserves_gets {A} (P : world -> Prop) (f : world -> A) : preserves P (gets f).
Proof. by intros w H. Qed.

Lemma preserves_modify (P : world -> Prop) (f : world -> world) :
  (forall w, P w -> P (f w)) -> preserves P (modify f).
Proof. intros Hf w H. by apply Hf. Qed.

Lemma preserves_bind {A B} (P : world -> Prop) (m : Py A) (k : A -> Py B) :
  preserves P m -> (forall a, preserves P (k a)) -> preserves P (bind m k).
Proof.
  intros Hm Hk w H. unfold bind. specialize (Hm w H).
  destruct (m w) as [[a| |] w1]; simpl in *; [by apply Hk|done..].
Qed.

Lemma preserves_attempt {A} (P : world -> Prop) (m : Py A) :
  preserves P m -> preserves P (attempt m).
Proof. intros Hm w H. by apply Hm. Qed.

Lemma preserves_set_zc (P : world -> Prop) (f : list CompressObj -> list CompressObj) :
  store_pred P -> preserves P (modify (set_zc f)).
Proof. intros HP. apply preserves_modify. intros w. by apply HP. Qed.

Lemma preserves_set_zd (P : world -> Prop) (f : list DecompressObj -> list DecompressObj) :
  store_pred P -> preserves P (modify (set_zd f)).
Proof. intros HP. apply preserves_modify. intros w. by apply HP. Qed.

Ltac pres_step :=
  lazymatch goal with
  | |- preserves _ (ret _) => apply preserves_ret
  | |- preserves _ (raise _) => apply preserves_raise
  | |- preserves _ out_of_fuel => apply preserves_out_of_fuel
  | |- preserves _ (gets _) => apply preserves_gets
  | |- preserves _ (modify (set_zc _)) => apply preserves_set_zc; assumption
  | |- preserves _ (modify (set_zd _)) => apply preserves_set_zd; assumption
  | |- preserves _ (attempt _) => apply preserves_attempt
  | |- preserves _ (bind _ _) => apply preserves_bind; [|intros ?]
  | |- preserves _ (match ?x with _ => _ end) => destruct x
  | |- preserves _ _ => solve [auto]
  end.

Ltac pres := repeat pres_step.

Section Frame.
Context (P : world -> Prop) (HP : store_pred P).

Lemma preserves_Compress_deref (c : nat) : preserves P (Compress_deref c).
Proof. unfold Compress_deref. pres. Qed.

Lemma preserves_Decompress_deref (d : nat) : preserves P (Decompress_deref d).
Proof. unfold Decompress_deref. pres. Qed.

Lemma preserves_Decompress_decompress (d : nat) (data : string) :
  preserves P (Decompress_decompress d data).
Proof.
  unfold Decompress_decompress.
  pose proof preserves_Decompress_deref. pres.
Qed.

Lemma preserves_drain (fuel d : nat) (t : string) : preserves P (drain fuel d t).
Proof.
  revert t. induction fuel as [|fuel IH]; intros t; simpl;
    pose proof preserves_Decompress_deref;
    pose proof preserves_Decompress_decompress; pres.
Qed.

Lemma preserves_Compressor_compress (self : Compressor) (text : string) :
  preserves P (Compressor_compress self text).
Proof.
  unfold Compressor_compress, Compress_copy, Compress_compress, Compress_flush.
  pose proof preserves_Compress_deref. pres.
Qed.

Lemma preserves_Compressor_decompress (fuel : nat) (self : Compressor) (ctext : string) :
  preserves P (Compressor_decompress fuel self ctext).
Proof.
  unfold Compressor_decompress, Decompress_copy.
  pose proof preserves_Decompress_deref.
  pose proof preserves_Decompress_decompress.
  pose proof preserves_drain. pres.
Qed.

Lemma preserves_Compressor_init (fuel : nat) (sd : string) :
  preserves P (Compressor_init fuel sd).
Proof.
  unfold Compressor_init, compressobj, Compress_compress, Compress_flush,
    Compress_copy, decompressobj, Decompress_copy.
  pose proof preserves_Compress_deref.
  pose proof preserves_Decompress_deref.
  pose proof preserves_Decompress_decompress.
  pose proof preserves_drain. pres.
Qed.

Lemma preserves_for_each {A B} (f : A -> Py B) (rs : list A) :
  (forall r, preserves P (f r)) -> preserves P (for_each f rs).
Proof. intros Hf. induction rs as [|r rs IH]; simpl; pres. Qed.

Lemma preserves_dumps (val : pyval) : preserves P (dumps val).
Proof. unfold dumps. pres. Qed.

End Frame.

(** ** C7, C4, C5: absent keys, [get_val] and [keys] across the backends *)

Lemma key_absent_store_pred (b : backend) (k : string) : store_pred (key_absent b k).
Proof.
  intros w w' (Hd & Hm & Hr & Hl & _) H.
  destruct b; simpl in *; by rewrite ?Hm, ?Hr, ?Hl.
Qed.

Lemma preserves_mem_write (s : InMemoryStorage) (key k : string) (v : pyval) :
  key <> k ->
  preserves (key_absent (BInMemory s) k)
    (modify (set_mem (fun h => alter (fun m => <[key := v]> m) (im_storage s) h))).
Proof.
  intros Hne. apply preserves_modify. intros w (m & Hm & Hk). simpl.
  exists (<[key := v]> m). rewrite list_lookup_alter_eq, Hm. split; [done|].
  by rewrite lookup_insert_ne.
Qed.

Lemma preserves_keyspace_put (s : RedisStorage) (key k : string) (v : redis_val) :
  key <> k ->
  preserves (key_absent (BRedis s) k) (keyspace_put (r_storage s) key v).
Proof.
  intros Hne. apply preserves_modify. intros w Hk. simpl in *.
  rewrite lookup_insert_eq. simpl. by rewrite lookup_insert_ne.
Qed.

Lemma preserves_Transaction_put (s : LMDBStorage) (key k val : string) :
  key <> k ->
  preserves (key_absent (BLMDB s) k)
    (Transaction_put (l_env s) (l_storage s) key val).
Proof.
  intros Hne w Hk. unfold Transaction_put, subdb. py_unfold.
  destruct (_ || _); [done|]. simpl in *.
  rewrite lookup_insert_eq. simpl. by rewrite lookup_insert_ne.
Qed.

Lemma do_call_keeps_absent (fuel : nat) (b : backend) (k : string) (c : call) :
  writes k c = false ->
  preserves (key_absent b k) (do_call fuel b c).
Proof.
  intros Hw.
  pose proof (key_absent_store_pred b k) as HP.
  pose proof (preserves_Compressor_compress _ HP).
  pose proof (preserves_Compressor_decompress _ HP).
  pose proof (preserves_dumps (key_absent b k)).
  pose proof (fun fuel self rs =>
    preserves_for_each (key_absent b k) (Compressor_decompress fuel self) rs
      (preserves_Compressor_decompress _ HP fuel self)).
  destruct c as [|key val|key|key val|key]; simpl in Hw;
    try (apply bool_decide_eq_false in Hw);
    destruct b as [s|s|s]; simpl;
    try pose proof (fun v => preserves_mem_write s key k v Hw);
    try pose proof (fun v => preserves_keyspace_put s key k v Hw);
    try pose proof (fun v => preserves_Transaction_put s key k v Hw);
    unfold InMemoryStorage_keys, InMemoryStorage_set_val, InMemoryStorage_get_val,
      InMemoryStorage_append_val, InMemoryStorage_get_list, mem_deref,
      RedisStorage_keys, RedisStorage_set_val, RedisStorage_get_val,
      RedisStorage_append_val, RedisStorage_get_list,
      StrictRedis_keys, StrictRedis_set, StrictRedis_get, StrictRedis_rpush,
      StrictRedis_lrange, keyspace,
      LMDBStorage_keys, LMDBStorage_set_val, LMDBStorage_get_val,
      LMDBStorage_append_val, LMDBStorage_get_list,
      Cursor_set_key, Cursor_iternext_dup, subdb;
    pres.
Qed.

Lemma do_calls_keep_absent (fuel : nat) (b : backend) (k : string) (cs : list call) :
  forallb (fun c => negb (writes k c)) cs = true ->
  preserves (key_absent b k) (do_calls fuel b cs).
Proof.
  induction cs as [|c cs IH]; simpl; intros Hcs; [apply preserves_ret|].
  apply andb_true_iff in Hcs as [Hc Hcs]. apply negb_true_iff in Hc.
  apply preserves_bind; [|intros _; by apply IH].
  apply preserves_attempt. by apply do_call_keeps_absent.
Qed.


(** [get_list] on a key under which nothing is stored. *)
Lemma get_list_absent (fuel : nat) (b : backend) (k : string) (w : world) :
  key_absent b k w ->
  match b with BLMDB _ => k <> "" | _ => True end ->
  get_list fuel b k w = (Returned (PList []), w).
Proof.
  intros Habs Hk. destruct b as [s|s|s]; simpl in *.
  - destruct Habs as (m & Hm & Hnone).
    unfold InMemoryStorage_get_list, mem_deref. py_unfold.
    rewrite Hm. simpl. by rewrite Hnone.
  - unfold RedisStorage_get_list, StrictRedis_lrange, keyspace. py_unfold.
    by rewrite Habs.
  - unfold LMDBStorage_get_list, Cursor_set_key, subdb. py_unfold.
    destruct k as [|a k]; [done|]. simpl. by rewrite Habs.
Qed.

(** C7, as the code has it. When nothing is stored under [k] and the
    calls made since wrote nothing under [k] (no [append_val] and no
    [set_val] on [k]), [get_list(k)] returns the empty list on each of
    the three backends; on the embedded backend [k] is a key the store
    accepts (not the empty string). *)
Theorem get_list_never_written
    (fuel : nat) (b : backend) (k : string) (cs : list call) (w : world) :
  key_absent b k w ->
  forallb (fun c => negb (writes k c)) cs = true ->
  match b with BLMDB _ => k <> "" | _ => True end ->
  ((do_calls fuel b cs ;;; get_list fuel b k) w).1 = Returned (PList []).
Proof.
  intros Habs Hcs Hk.
  pose proof (do_calls_keep_absent fuel b k cs Hcs w Habs) as Habs'.
  pose proof (do_calls_returns fuel b cs w) as Hret.
  unfold bind. destruct (do_calls fuel b cs w) as [r w1]. simpl in *. subst r.
  by rewrite get_list_absent.
Qed.

(** C4, as the code has it. On a key under which nothing is stored,
    [get_val] raises [KeyError] on the in-memory backend, returns [None]
    on the Redis backend and raises [NotImplementedError] on the LMDB
    backend; the world is left as it was. *)
Theorem get_val_absent_key (b : backend) (k : string) (w : world) :
  key_absent b k w ->
  get_val b k w =
    (match b with
     | BInMemory _ => Raised (KeyError k)
     | BRedis _ => Returned PNone
     | BLMDB _ => Raised NotImplementedError
     end, w).
Proof.
  intros Habs. destruct b as [s|s|s]; simpl in *.
  - destruct Habs as (m & Hm & Hnone).
    unfold InMemoryStorage_get_val, mem_deref. py_unfold.
    rewrite Hm. simpl. by rewrite Hnone.
  - unfold RedisStorage_get_val, StrictRedis_get, keyspace. py_unfold.
    by rewrite Habs.
  - reflexivity.
Qed.

Lemma elem_of_map_keys {V} (m : gmap string V) (k : string) :
  k ∈ (map_to_list m).*1 <-> is_Some (m !! k).
Proof.
  rewrite list_elem_of_fmap. split.
  - intros ([k' v] & -> & Hin). apply elem_of_map_to_list in Hin. by exists v.
  - intros [v Hv]. exists (k, v). split; [done|]. by apply elem_of_map_to_list.
Qed.

Lemma filter_all {A} (P : A -> Prop) `{!forall x, Decision (P x)} (l : list A) :
  (forall x, P x) -> filter P l = l.
Proof.
  intros HP. induction l as [|x l IH]; [done|].
  rewrite filter_cons_True by done. by rewrite IH.
Qed.

(** C5, as the code has it. [keys()] returns the list of the stored keys,
    each once, on the in-memory and the Redis backend, and raises
    [NotImplementedError] on the LMDB backend. *)
Theorem keys_by_backend (b : backend) (w : world) :
  backend_live b w ->
  match b with
  | BLMDB _ => keys b w = (Raised NotImplementedError, w)
  | _ =>
      exists ks : list string,
        keys b w = (Returned (PList (PStr <$> ks)), w)
        /\ NoDup ks
        /\ forall k, k ∈ ks <-> has_key b w k
  end.
Proof.
  intros Hlive. destruct b as [s|s|s]; simpl in *.
  - destruct Hlive as [m Hm]. exists (map_to_list m).*1.
    unfold InMemoryStorage_keys, mem_deref. py_unfold. rewrite Hm. simpl.
    split_and!; [done|apply NoDup_fst_map_to_list|].
    intros k. rewrite elem_of_map_keys. split.
    + intros Hk. by exists m.
    + intros (m' & Hm' & Hk). by simplify_eq.
  - exists (map_to_list (default ∅ (w_redis w !! r_storage s))).*1.
    unfold RedisStorage_keys, StrictRedis_keys, keyspace. py_unfold.
    rewrite filter_all by apply stringmatch_star.
    split_and!; [done|apply NoDup_fst_map_to_list|].
    intros k. apply elem_of_map_keys.
  - reflexivity.
Qed.

(** ** C2 and C9: lists on the Redis and the LMDB backend *)

Lemma primed_same_zlib (self : Compressor) (sd : string) (w w' : world) :
  w_zc w' = w_zc w -> w_zd w' = w_zd w -> primed self sd w -> primed self sd w'.
Proof. intros Hc Hd (dst & ? & ? & ?). exists dst. by rewrite Hc, Hd. Qed.

Lemma for_each_decompress (fuel : nat) (self : Compressor) (sd : string)
    (ts : list string) :
  forall w, primed self sd w ->
    exists w',
      for_each (Compressor_decompress fuel self) (compress_out sd <$> ts) w
        = (Returned ts, w')
      /\ extends w w'.
Proof.
  induction ts as [|t ts IH]; intros w Hp; simpl.
  - exists w. split; [done|apply extends_refl].
  - destruct (Compressor_decompress_spec fuel self sd t w Hp) as (w1 & E1 & X1).
    destruct (IH w1 (primed_extends _ _ _ _ (proj1 X1) Hp)) as (w2 & E2 & X2).
    exists w2. split; [|by eapply extends_trans].
    by rewrite (bind_returned _ _ _ _ _ E1), (bind_returned _ _ _ _ _ E2).
Qed.

(** Two texts do not compress to the same bytes. *)
Lemma compress_out_inj (sd t1 t2 : string) :
  compress_out sd t1 = compress_out sd t2 -> t1 = t2.
Proof.
  intros Heq. destruct (inflate_seed sd) as [dst Hseed].
  destruct (inflate_compress_out sd t1 dst Hseed) as [d1 H1].
  destruct (inflate_compress_out sd t2 dst Hseed) as [d2 H2].
  rewrite Heq in H1. congruence.
Qed.

Lemma RedisStorage_init_returned (fuel : nat) (config : cfgval)
    (w w0 : world) (self : RedisStorage) :
  RedisStorage_init fuel config w = (Returned self, w0) ->
  primed (r_c self) seed w0 /\ extends w w0.
Proof.
  unfold RedisStorage_init, dict_deref. py_unfold.
  destruct (w_redis_module w); simpl; [|discriminate].
  destruct config as [| |l]; try discriminate.
  destruct (w_dicts w !! l); simpl; [|discriminate].
  destruct (Compressor_init_spec fuel seed w) as (c & w' & E & Hp & Hx).
  rewrite E. intros [= <- <-]. done.
Qed.


Lemma LMDBStorage_init_returned (fuel : nat) (config : cfgval)
    (w w0 : world) (self : LMDBStorage) :
  LMDBStorage_init fuel config w = (Returned self, w0) ->
  primed (l_c self) seed w0.
Proof.
  unfold LMDBStorage_init, dict_getitem, dict_deref, Environment_open_db. py_unfold.
  destruct (w_lmdb_module w); simpl; [|discriminate].
  destruct config as [| |l]; try discriminate.
  destruct (w_dicts w !! l) as [m|] eqn:Hd; simpl; [|discriminate].
  destruct (m !! "path") as [[|p|]|]; simpl; try discriminate.
  rewrite Hd. simpl.
  destruct (m !! "db") as [[|d|]|]; simpl; try discriminate.
  match goal with
  | |- context [Compressor_init fuel seed ?w1] =>
      destruct (Compressor_init_spec fuel seed w1) as (c & w' & E & Hp & Hx);
      rewrite E
  end.
  intros [= <- <-]. done.
Qed.

Lemma LMDBStorage_append_val_returned (self : LMDBStorage) (key : string)
    (v : pyval) (t : string) (w w1 : world) :
  primed (l_c self) seed w ->
  json_dumps v = Some t ->
  LMDBStorage_append_val self key v w = (Returned tt, w1) ->
  key <> ""
  /\ primed (l_c self) seed w1
  /\ lmdb_table self w1 =
       <[key := dup_insert (compress_out seed t)
                  (default [] (lmdb_table self w !! key))]> (lmdb_table self w).
Proof.
  intros Hp Hjson.
  destruct (Compressor_compress_spec (l_c self) seed t w Hp)
    as (w' & E1 & [Hz1 (_ & _ & _ & Hl1 & _)]).
  unfold LMDBStorage_append_val, dumps. rewrite Hjson.
  unfold bind at 1. unfold ret at 1. rewrite (bind_returned _ _ _ _ _ E1).
  unfold Transaction_put, subdb, lmdb_table. py_unfold.
  destruct (String.length key =? 0)%nat eqn:Hk; simpl; [discriminate|].
  destruct (_ || _); simpl; [discriminate|].
  intros [= <-]. simpl. split_and!.
  - intros ->. discriminate.
  - apply (primed_same_zlib _ _ w'); [done..|]. by apply (primed_extends _ _ w).
  - by rewrite lookup_insert_eq, Hl1.
Qed.

Lemma LMDBStorage_get_list_spec (fuel : nat) (self : LMDBStorage) (key : string)
    (ts : list string) (w : world) :
  primed (l_c self) seed w ->
  key <> "" ->
  lmdb_table self w !! key = Some (compress_out seed <$> ts) ->
  (LMDBStorage_get_list fuel self key w).1 = Returned (PList (PStr <$> ts)).
Proof.
  intros Hp Hk Htbl.
  destruct (for_each_decompress fuel (l_c self) seed ts w Hp) as (w' & E & _).
  unfold LMDBStorage_get_list, Cursor_set_key, Cursor_iternext_dup, subdb.
  unfold lmdb_table in Htbl.
  destruct key as [|a key]; [done|]. simpl.
  unfold bind at 1. unfold bind at 1. unfold gets at 1. unfold ret at 1.
  rewrite Htbl. simpl.
  unfold bind at 1. unfold bind at 1. unfold bind at 1.
  unfold gets at 1. unfold ret at 1. rewrite Htbl. simpl.
  by rewrite E.
Qed.

(** Where the LMDB backend does keep two appends: when nothing is stored
    under [k] and two values whose JSON texts differ are appended under
    [k], both calls returning, [get_list(k)] returns a list of length 2
    that holds the two texts, in one order or the other. *)
Theorem lmdb_two_appends
    (fuel1 fuel2 : nat) (config : cfgval) (w w0 w1 w2 : world)
    (self : LMDBStorage) (key : string) (v1 v2 : pyval) (t1 t2 : string) :
  LMDBStorage_init fuel1 config w = (Returned self, w0) ->
  key_absent (BLMDB self) key w0 ->
  json_dumps v1 = Some t1 ->
  json_dumps v2 = Some t2 ->
  t1 <> t2 ->
  append_val (BLMDB self) key v1 w0 = (Returned tt, w1) ->
  append_val (BLMDB self) key v2 w1 = (Returned tt, w2) ->
  exists l : list pyval,
    (get_list fuel2 (BLMDB self) key w2).1 = Returned (PList l)
    /\ List.length l = 2%nat
    /\ l ≡ₚ [PStr t1; PStr t2].
Proof.
  intros Hinit Habs Hj1 Hj2 Hne H1 H2. simpl in *.
  pose proof (LMDBStorage_init_returned _ _ _ _ _ Hinit) as Hp0.
  destruct (LMDBStorage_append_val_returned _ _ _ _ _ _ Hp0 Hj1 H1)
    as (Hk & Hp1 & Ht1).
  destruct (LMDBStorage_append_val_returned _ _ _ _ _ _ Hp1 Hj2 H2)
    as (_ & Hp2 & Ht2).
  fold (lmdb_table self w0) in Habs. rewrite Habs in Ht1. simpl in Ht1.
  rewrite Ht1, lookup_insert_eq in Ht2. simpl in Ht2.
  assert (compress_out seed t2 <> compress_out seed t1) as Hc.
  { intros Heq. apply Hne. symmetry. by apply compress_out_inj in Heq. }
  destruct (String.compare (compress_out seed t2) (compress_out seed t1)) eqn:Hcmp.
  - by apply String.compare_eq_iff in Hcmp.
  - exists [PStr t2; PStr t1]. split_and!; [|done|apply Permutation_swap].
    apply (LMDBStorage_get_list_spec fuel2 self key [t2; t1] w2 Hp2 Hk).
    by rewrite Ht2, lookup_insert_eq.
  - exists [PStr t1; PStr t2]. split_and!; [|done|done].
    apply (LMDBStorage_get_list_spec fuel2 self key [t1; t2] w2 Hp2 Hk).
    by rewrite Ht2, lookup_insert_eq.
Qed.

(** ** C3 and C10: the factory *)











Lemma dict_contains_eq (d : nat) (key : string) (w : world) (m : gmap string cfgval) :
  w_dicts w !! d = Some m ->
  dict_contains d key w = (Returned (bool_decide (is_Some (m !! key))), w).
Proof. intros H. unfold dict_contains, dict_deref. py_unfold. by rewrite H. Qed.

Lemma bool_decide_is_Some_None {A} (o : option A) :
  o = None -> bool_decide (is_Some o) = false.
Proof. intros ->. apply bool_decide_eq_false_2. by intros [? ?]. Qed.

Lemma bool_decide_is_Some_Some {A} (o : option A) :
  is_Some o -> bool_decide (is_Some o) = true.
Proof. intros H. by apply bool_decide_eq_true_2. Qed.

Lemma bind_returned_inv {A B} (m : Py A) (k : A -> Py B) (w w' : world) (b : B) :
  bind m k w = (Returned b, w') ->
  exists a w1, m w = (Returned a, w1) /\ k a w1 = (Returned b, w').
Proof.
  unfold bind. destruct (m w) as [[a| |] w1]; [eauto|discriminate..].
Qed.

Lemma list_alter_insert {A} (f : A -> A) (l : list A) (i : nat) (x : A) :
  l !! i = Some x -> alter f i l = <[i := f x]> l.
Proof.
  revert i. induction l as [|a l IH]; intros [|i] H; simplify_eq/=; [done|].
  f_equal. by apply IH.
Qed.

Lemma dict_getitem_eq (d : nat) (key : string) (w : world)
    (m : gmap string cfgval) (v : cfgval) :
  w_dicts w !! d = Some m -> m !! key = Some v ->
  dict_getitem (CObj d) key w = (Returned v, w).
Proof.
  intros Hm Hv. unfold dict_getitem, dict_deref. py_unfold.
  rewrite Hm. simpl. by rewrite Hv.
Qed.

Lemma dict_setitem_eq (l : nat) (key : string) (v : cfgval) (w : world)
    (sub : gmap string cfgval) :
  w_dicts w !! l = Some sub ->
  dict_setitem (CObj l) key v w =
    (Returned tt, set_dicts (fun h => <[l := <[key := v]> sub]> h) w).
Proof.
  intros Hs. unfold dict_setitem, dict_deref. py_unfold. rewrite Hs. simpl.
  by rewrite (list_alter_insert _ _ _ _ Hs).
Qed.

Lemma dicts_after_setitem (w : world) (cfg l : nat) (m sub : gmap string cfgval)
    (key : string) (x v : cfgval) :
  w_dicts w !! cfg = Some m ->
  w_dicts w !! l = Some sub ->
  key <> "db" ->
  m !! key = Some x ->
  exists m1,
    <[l := <["db" := v]> sub]> (w_dicts w) !! cfg = Some m1 /\ m1 !! key = Some x.
Proof.
  intros Hm Hsub Hkey Hx. destruct (decide (l = cfg)) as [->|Hne].
  - exists (<["db" := v]> sub).
    rewrite list_lookup_insert_eq by (by eapply lookup_lt_Some).
    split; [done|]. rewrite lookup_insert_ne by done. congruence.
  - exists m. by rewrite list_lookup_insert_ne.
Qed.




Lemma dicts_store_pred (D : list (gmap string cfgval)) :
  store_pred (fun w => w_dicts w = D).
Proof. intros w w' (Hd & _) H. by rewrite Hd. Qed.

Lemma preserves_dicts_RedisStorage_init (D : list (gmap string cfgval))
    (fuel : nat) (config : cfgval) :
  preserves (fun w => w_dicts w = D) (RedisStorage_init fuel config).
Proof.
  pose proof (preserves_Compressor_init _ (dicts_store_pred D)).
  unfold RedisStorage_init, dict_deref. pres.
Qed.

Lemma preserves_dicts_LMDBStorage_init (D : list (gmap string cfgval))
    (fuel : nat) (config : cfgval) :
  preserves (fun w => w_dicts w = D) (LMDBStorage_init fuel config).
Proof.
  pose proof (preserves_Compressor_init _ (dicts_store_pred D)).
  assert (forall env db, preserves (fun w => w_dicts w = D) (Environment_open_db env db)).
  { intros env db. by apply preserves_modify. }
  unfold LMDBStorage_init, dict_getitem, dict_deref. pres.
Qed.

Lemma preserves_dict_getitem (P : world -> Prop) (d : cfgval) (key : string) :
  preserves P (dict_getitem d key).
Proof. unfold dict_getitem, dict_deref. pres. Qed.

(** C10. Called on a configuration that selects the Redis or the LMDB
    backend, the factory writes the index under ['db'] into the
    dictionary that the configuration holds for that backend: the
    integer for Redis, its decimal text for LMDB. The dictionary object
    is changed in place, and stays changed however the construction of
    the backend ends; unless it already held that value under ['db'],
    the caller's configuration is no longer what it was. *)
Theorem storage_writes_db
    (fuel : nat) (storage_config : nat) (index : Z) (w : world)
    (m sub : gmap string cfgval) (l : nat) :
  w_dicts w !! storage_config = Some m ->
  m !! "dict" = None ->
  w_dicts w !! l = Some sub ->
  (m !! "redis" = Some (CObj l) ->
     w_dicts (storage fuel storage_config index w).2
       = <[l := <["db" := CInt index]> sub]> (w_dicts w)
     /\ (sub !! "db" <> Some (CInt index) ->
          w_dicts (storage fuel storage_config index w).2 <> w_dicts w))
  /\ (m !! "redis" = None -> m !! "lmdb" = Some (CObj l) ->
     w_dicts (storage fuel storage_config index w).2
       = <[l := <["db" := CStr (pretty index)]> sub]> (w_dicts w)
     /\ (sub !! "db" <> Some (CStr (pretty index)) ->
          w_dicts (storage fuel storage_config index w).2 <> w_dicts w)).
Proof.
  intros Hm Hd Hsub.
  assert (forall v, <[l := <["db" := v]> sub]> (w_dicts w) = w_dicts w ->
                    sub !! "db" = Some v) as Hchanged.
  { intros v Heq.
    assert (<[l := <["db" := v]> sub]> (w_dicts w) !! l = Some sub) as Hl
      by (by rewrite Heq).
    rewrite list_lookup_insert_eq in Hl by (by eapply lookup_lt_Some).
    injection Hl as Hl. rewrite <- Hl. apply lookup_insert_eq. }
  unfold storage.
  rewrite (bind_returned _ _ _ _ _ (dict_contains_eq _ "dict" _ _ Hm)).
  rewrite (bool_decide_is_Some_None _ Hd).
  rewrite (bind_returned _ _ _ _ _ (dict_contains_eq _ "redis" _ _ Hm)).
  split.
  - intros Hr. rewrite bool_decide_is_Some_Some by eauto.
    rewrite (bind_returned _ _ _ _ _ (dict_getitem_eq _ _ _ _ _ Hm Hr)).
    rewrite (bind_returned _ _ _ _ _ (dict_setitem_eq _ _ _ _ _ Hsub)).
    match goal with
    | |- context [bind ?a ?k ?w1] =>
        assert (w_dicts (bind a k w1).2
                = <[l := <["db" := CInt index]> sub]> (w_dicts w)) as Hres
    end.
    { apply (preserves_bind (fun w' => w_dicts w' = _));
        [apply preserves_dict_getitem| |done].
      intros config. apply preserves_bind; [|intros; apply preserves_ret].
      apply preserves_dicts_RedisStorage_init. }
    split; [done|]. rewrite Hres. intros Hne Heq. by apply Hne, Hchanged.
  - intros Hr Hl. rewrite (bool_decide_is_Some_None _ Hr).
    rewrite (bind_returned _ _ _ _ _ (dict_contains_eq _ "lmdb" _ _ Hm)).
    rewrite bool_decide_is_Some_Some by eauto.
    rewrite (bind_returned _ _ _ _ _ (dict_getitem_eq _ _ _ _ _ Hm Hl)).
    rewrite (bind_returned _ _ _ _ _ (dict_setitem_eq _ _ _ _ _ Hsub)).
    match goal with
    | |- context [bind ?a ?k ?w1] =>
        assert (w_dicts (bind a k w1).2
                = <[l := <["db" := CStr (pretty index)]> sub]> (w_dicts w)) as Hres
    end.
    { apply (preserves_bind (fun w' => w_dicts w' = _));
        [apply preserves_dict_getitem| |done].
      intros config. apply preserves_bind; [|intros; apply preserves_ret].
      apply preserves_dicts_LMDBStorage_init. }
    split; [done|]. rewrite Hres. intros Hne Heq. by apply Hne, Hchanged.
Qed.

(** ** More on the compressor: what a call never touches, and faults *)

(** X1. [compress] and [decompress] work on a copy of a context: whatever
    the compressor and the world they are called with, and whatever the
    outcome (a result, a [zlib.error], no fuel left), every zlib object
    that was there is as it was, and no store is written. *)
Theorem Compressor_calls_frame
    (fuel : nat) (self : Compressor) (text ctext : string) (w : world) :
  extends w (Compressor_compress self text w).2
  /\ extends w (Compressor_decompress fuel self ctext w).2.
Proof. apply Compressor_calls_extend. Qed.

(** [LRANGE key 0 -1] is the whole list. *)
Lemma lrange_slice_all (l : list string) : lrange_slice l 0 (-1) = l.
Proof.
  unfold lrange_slice. simpl.
  destruct l as [|x l]; [done|].
  set (len := Z.of_nat (List.length (x :: l))).
  assert (0 < len) as Hlen by (unfold len; simpl; lia).
  replace (Z.min (len + -1) (len - 1)) with (len - 1) by lia.
  destruct (Z.ltb_spec (len - 1) 0) as [?|_]; [lia|].
  destruct (Z.leb_spec len 0) as [?|_]; [lia|]. simpl orb. cbv iota.
  replace (Z.to_nat (len - 1 - 0 + 1)) with (List.length (x :: l))
    by (unfold len; lia).
  by rewrite drop_0, firstn_all.
Qed.

(** What [decompress] does with one entry, the context being primed at
    the inflate state [dst]. *)
Lemma Compressor_decompress_cases (fuel : nat) (self : Compressor)
    (c : string) (w : world) (dst : inflate_state) :
  w_zd w !! d_context self = Some {| d_zst := dst; unconsumed_tail := "" |} ->
  exists w',
    extends w w'
    /\ Compressor_decompress fuel self c w =
         (match inflate dst c with
          | Some (_, out) => Returned out
          | None => Raised zlib_error
          end, w').
Proof.
  intros Hd. unfold Compressor_decompress.
  set (obj := {| d_zst := dst; unconsumed_tail := "" |}) in *.
  set (w1 := set_zd (fun h => h ++ [obj]) w).
  assert (extends w w1) as X1.
  { apply extends_of_fields; simpl; try done. by apply prefix_app_r. }
  rewrite (bind_returned _ _ w w1 (List.length (w_zd w)))
    by (unfold Decompress_copy, Decompress_deref; py_unfold; by rewrite Hd).
  assert (w_zd w1 !! List.length (w_zd w) = Some obj) as Hl by apply lookup_snoc.
  destruct (inflate dst c) as [[st out]|] eqn:Hinf; cycle 1.
  { exists w1. split; [exact X1|]. apply bind_raised.
    unfold Decompress_decompress, Decompress_deref. py_unfold.
    rewrite Hl. simpl. by rewrite Hinf. }
  set (w2 := set_zd (fun h => <[List.length (w_zd w) :=
               {| d_zst := st; unconsumed_tail := "" |}]> h) w1).
  rewrite (bind_returned _ _ w1 w2 out)
    by (unfold Decompress_decompress, Decompress_deref; py_unfold;
        rewrite Hl; simpl; by rewrite Hinf).
  exists w2. split.
  - apply extends_of_fields; simpl; try done.
    rewrite insert_snoc. by apply prefix_app_r.
  - apply (drain_empty_tail _ _ _ _ st). simpl. rewrite insert_snoc.
    apply lookup_snoc.
Qed.

Lemma for_each_decode_fault (fuel : nat) (self : Compressor)
    (dst : inflate_state) (r : string) (rs : list string) :
  r ∈ rs -> inflate dst r = None ->
  forall w,
    w_zd w !! d_context self = Some {| d_zst := dst; unconsumed_tail := "" |} ->
    (for_each (Compressor_decompress fuel self) rs w).1 = Raised zlib_error.
Proof.
  intros Hin Hbad. induction rs as [|r' rs IH]; intros w Hd.
  - by apply elem_of_nil in Hin.
  - simpl.
    destruct (Compressor_decompress_cases fuel self r' w dst Hd) as (w' & X & E).
    destruct (inflate dst r') as [[st out]|] eqn:Hr'.
    + rewrite (bind_returned _ _ _ _ _ E).
      apply elem_of_cons in Hin as [->|Hin]; [congruence|].
      assert ((for_each (Compressor_decompress fuel self) rs w').1
              = Raised zlib_error) as Hrest.
      { apply IH; [done|]. eapply lookup_prefix; [apply X|done]. }
      unfold bind. destruct (for_each _ rs w') as [o w'']. simpl in Hrest.
      by subst o.
    + by rewrite (bind_raised _ _ _ _ _ E).
Qed.

(** X2. One entry that does not inflate makes [get_list] raise. When
    [decompress] raises [zlib.error] on one of the entries stored under
    the key, [get_list] on the Redis backend raises [zlib.error]: the
    other entries are not returned. *)
Theorem redis_get_list_decode_fault
    (fuel : nat) (self : RedisStorage) (key r : string) (rs : list string)
    (w : world) :
  primed (r_c self) seed w ->
  default ∅ (w_redis w !! r_storage self) !! key = Some (RList rs) ->
  r ∈ rs ->
  (Compressor_decompress fuel (r_c self) r w).1 = Raised zlib_error ->
  (get_list fuel (BRedis self) key w).1 = Raised zlib_error.
Proof.
  intros (dst & Hc & Hd & Hseed) Hks Hin Hbad.
  assert (inflate dst r = None) as Hnone.
  { destruct (Compressor_decompress_cases fuel (r_c self) r w dst Hd)
      as (w' & _ & E).
    rewrite E in Hbad. simpl in Hbad.
    by destruct (inflate dst r) as [[? ?]|]. }
  simpl. unfold RedisStorage_get_list.
  rewrite (bind_returned _ _ w w rs); cycle 1.
  { unfold StrictRedis_lrange, keyspace. py_unfold. rewrite Hks.
    by rewrite lrange_slice_all. }
  pose proof (for_each_decode_fault fuel (r_c self) dst r rs Hin Hnone w Hd) as H.
  unfold bind. destruct (for_each _ rs w) as [o w']. simpl in H. by subst o.
Qed.

(** ** More on the Redis backend: append order, a second client *)

Lemma RedisStorage_append_val_spec (self : RedisStorage) (key : string)
    (v : pyval) (t : string) (ts : list string) (w : world) :
  primed (r_c self) seed w ->
  json_dumps v = Some t ->
  redis_holds self w key ts ->
  exists w',
    append_val (BRedis self) key v w = (Returned tt, w')
    /\ zlib_grows w w'
    /\ w_dicts w' = w_dicts w
    /\ redis_holds self w' key (ts ++ [t])
    /\ forall key' ts', key' <> key ->
          redis_holds self w key' ts' -> redis_holds self w' key' ts'.
Proof.
  intros Hp Hjson Hh.
  destruct (Compressor_compress_spec (r_c self) seed t w Hp)
    as (w1 & E1 & [Hz1 (Hd1 & _ & Hr1 & _)]).
  simpl. unfold RedisStorage_append_val, dumps. rewrite Hjson.
  unfold bind at 1. unfold ret at 1. rewrite (bind_returned _ _ _ _ _ E1).
  unfold redis_holds, redis_keyspace in *.
  unfold StrictRedis_rpush, keyspace, keyspace_put. py_unfold. rewrite Hr1.
  destruct (default ∅ (w_redis w !! r_storage self) !! key) as [[?|l]|] eqn:Hk;
    [done| |]; eexists; (split; [reflexivity|]); simpl;
    rewrite Hr1, !lookup_insert_eq; simpl; rewrite !lookup_insert_eq;
    (split_and!; [done|done| |]).
  - subst l. by rewrite fmap_app.
  - intros key' ts' Hne. by rewrite lookup_insert_ne.
  - by subst ts.
  - intros key' ts' Hne. by rewrite lookup_insert_ne.
Qed.

Lemma RedisStorage_get_list_spec (fuel : nat) (self : RedisStorage) (key : string)
    (ts : list string) (w : world) :
  primed (r_c self) seed w ->
  redis_holds self w key ts ->
  (get_list fuel (BRedis self) key w).1 = Returned (PList (PStr <$> ts)).
Proof.
  intros Hp Hh. simpl. unfold RedisStorage_get_list.
  destruct (for_each_decompress fuel (r_c self) seed ts w Hp) as (w' & E & _).
  unfold redis_holds, redis_keyspace in Hh.
  rewrite (bind_returned _ _ w w (compress_out seed <$> ts)); cycle 1.
  { unfold StrictRedis_lrange, keyspace. py_unfold.
    destruct (default ∅ (w_redis w !! r_storage self) !! key) as [[?|l]|];
      [done| |]; subst; [by rewrite lrange_slice_all|done]. }
  by rewrite (bind_returned _ _ _ _ _ E).
Qed.

Lemma append_all_redis (self : RedisStorage) (k : string)
    (items : list (string * pyval)) :
  forall (w : world) (ts : list string),
    primed (r_c self) seed w ->
    (forall key, exists ts', redis_holds self w key ts') ->
    redis_holds self w k ts ->
    Forall (fun kv => is_Some (json_dumps kv.2)) items ->
    exists w',
      append_all (BRedis self) items w = (Returned tt, w')
      /\ primed (r_c self) seed w'
      /\ redis_holds self w' k (ts ++ (text_of <$> values_of k items)).
Proof.
  induction items as [|[key val] rest IH]; intros w ts Hp Hall Hk Hok.
  - exists w. unfold values_of. simpl. by rewrite app_nil_r.
  - apply Forall_cons in Hok as [[t Ht] Hok]. simpl in Ht.
    destruct (Hall key) as [ts0 Hts0].
    destruct (RedisStorage_append_val_spec self key val t ts0 w Hp Ht Hts0)
      as (w1 & E1 & Hz1 & _ & Hkey & Hother).
    assert (primed (r_c self) seed w1) as Hp1 by by eapply primed_extends.
    assert (forall key', exists ts', redis_holds self w1 key' ts') as Hall1.
    { intros key'. destruct (decide (key' = key)) as [->|Hne]; [eauto|].
      destruct (Hall key') as [ts' Hts']. eauto. }
    assert (redis_holds self w1 k
              (ts ++ (text_of <$> values_of k [(key, val)]))) as Hk1.
    { unfold values_of. rewrite filter_cons, filter_nil. simpl.
      case_decide as Hd.
      - subst key. simpl. unfold text_of. rewrite Ht. simpl.
        assert (ts0 = ts) as ->; [|done].
        unfold redis_holds in Hts0, Hk.
        destruct (redis_keyspace self w !! k) as [[?|l]|]; [done| |congruence].
        assert (Inj (=) (=) (compress_out seed)) as Hinj
          by (intros ???; by apply (compress_out_inj seed)).
        rewrite Hts0 in Hk. by apply (inj (fmap (compress_out seed))) in Hk.
      - simpl. rewrite app_nil_r. by apply Hother. }
    destruct (IH w1 _ Hp1 Hall1 Hk1 Hok) as (w' & E & Hp' & Hk').
    exists w'. split_and!; [|done|].
    + simpl. by rewrite (bind_returned _ _ _ _ _ E1).
    + rewrite <- app_assoc, <- fmap_app in Hk'.
      replace (values_of k ((key, val) :: rest))
        with (values_of k [(key, val)] ++ values_of k rest); [done|].
      unfold values_of. change ((key, val) :: rest) with ([(key, val)] ++ rest).
      by rewrite filter_app, fmap_app.
Qed.

Lemma RedisStorage_init_client (fuel : nat) (config : cfgval)
    (w w0 : world) (self : RedisStorage) :
  RedisStorage_init fuel config w = (Returned self, w0) ->
  exists l kwargs,
    config = CObj l /\ w_dicts w !! l = Some kwargs
    /\ r_storage self = StrictRedis kwargs.
Proof.
  unfold RedisStorage_init, dict_deref. py_unfold.
  destruct (w_redis_module w); simpl; [|discriminate].
  destruct config as [| |l]; try discriminate.
  destruct (w_dicts w !! l) as [kw|] eqn:Hkw; simpl; [|discriminate].
  destruct (Compressor_init_spec fuel seed w) as (c & w' & E & Hp & Hx).
  rewrite E. intros [= <- <-]. by exists l, kw.
Qed.

(** X3. The Redis backend keeps append order. On a Redis backend whose
    database holds, under every key, nothing or a list written by this
    module, after any sequence of [append_val] calls with values that
    [json.dumps] accepts, [get_list(k)] returns the texts that were under
    [k] followed by the JSON texts of the values appended under [k], in
    the order of the calls. *)
Theorem redis_append_order
    (fuel1 fuel2 : nat) (config : cfgval) (w w0 : world) (self : RedisStorage)
    (items : list (string * pyval)) (k : string) (ts : list string) :
  RedisStorage_init fuel1 config w = (Returned self, w0) ->
  (forall key, exists ts', redis_holds self w0 key ts') ->
  redis_holds self w0 k ts ->
  Forall (fun kv => is_Some (json_dumps kv.2)) items ->
  ((append_all (BRedis self) items ;;;
    get_list fuel2 (BRedis self) k) w0).1
  = Returned (PList (PStr <$> (ts ++ (text_of <$> values_of k items)))).
Proof.
  intros Hinit Hall Hk Hok.
  destruct (RedisStorage_init_returned _ _ _ _ _ Hinit) as [Hp _].
  destruct (append_all_redis self k items w0 ts Hp Hall Hk Hok)
    as (w' & E & Hp' & Hk').
  rewrite (bind_returned _ _ _ _ _ E).
  by apply RedisStorage_get_list_spec.
Qed.


(** ** More on the LMDB backend: the values of a key are a sorted set *)

Lemma string_compare_refl (a : string) : String.compare a a = Eq.
Proof.
  induction a as [|x a IH]; [done|]. simpl.
  unfold Ascii.compare. by rewrite N.compare_refl.
Qed.

Lemma bytes_lt_irrefl (a : string) : ~ bytes_lt a a.
Proof. unfold bytes_lt. by rewrite string_compare_refl. Qed.

Lemma bytes_lt_trans (a b c : string) : bytes_lt a b -> bytes_lt b c -> bytes_lt a c.
Proof.
  unfold bytes_lt. revert b c.
  induction a as [|x a IH]; intros [|y b] [|z c]; simpl; try done.
  destruct (Ascii.compare x y) eqn:Hxy; [|clear IH|done].
  - apply Ascii.compare_eq_iff in Hxy as ->.
    destruct (Ascii.compare y z); [apply IH|done..].
  - destruct (Ascii.compare y z) eqn:Hyz; [| |done].
    + apply Ascii.compare_eq_iff in Hyz as ->. by rewrite Hxy.
    + assert (Ascii.compare x z = Lt) as ->; [|done].
      unfold Ascii.compare in *. apply N.compare_lt_iff.
      apply N.compare_lt_iff in Hxy. apply N.compare_lt_iff in Hyz.
      exact (N.lt_trans _ _ _ Hxy Hyz).
Qed.

Lemma bytes_gt_lt (a b : string) : String.compare a b = Gt -> bytes_lt b a.
Proof.
  unfold bytes_lt. intros H. rewrite String.compare_antisym, H. done.
Qed.

Lemma dup_insert_elem (v y : string) (l : list string) :
  y ∈ dup_insert v l <-> y = v \/ y ∈ l.
Proof.
  induction l as [|x l IH]; simpl.
  - rewrite list_elem_of_singleton. split; [by left|].
    intros [?|Hin]; [done|by apply elem_of_nil in Hin].
  - destruct (String.compare v x) eqn:Hc.
    + apply String.compare_eq_iff in Hc as ->. split; [by right|].
      intros [->|?]; [apply elem_of_cons; by left|done].
    + apply elem_of_cons.
    + rewrite !elem_of_cons, IH. tauto.
Qed.

Lemma dup_insert_sorted (v : string) (l : list string) :
  StronglySorted bytes_lt l -> StronglySorted bytes_lt (dup_insert v l).
Proof.
  induction l as [|x l IH]; intros Hs; simpl.
  - repeat constructor.
  - apply StronglySorted_inv in Hs as [Hl Hx].
    destruct (String.compare v x) eqn:Hc.
    + by constructor.
    + constructor; [by constructor|]. constructor; [done|].
      eapply Forall_impl; [exact Hx|]. intros y Hy.
      by apply (bytes_lt_trans v x y).
    + constructor; [by apply IH|]. apply Forall_forall. intros y Hy.
      apply dup_insert_elem in Hy as [->|Hy]; [by apply bytes_gt_lt|].
      by eapply Forall_forall in Hx.
Qed.

Lemma dup_insert_present (v : string) (l : list string) :
  StronglySorted bytes_lt l -> v ∈ l -> dup_insert v l = l.
Proof.
  induction l as [|x l IH]; intros Hs Hin; [by apply elem_of_nil in Hin|].
  apply StronglySorted_inv in Hs as [Hl Hx]. simpl.
  apply elem_of_cons in Hin as [->|Hin].
  - by rewrite string_compare_refl.
  - assert (bytes_lt x v) as Hlt by by eapply Forall_forall in Hx.
    unfold bytes_lt in Hlt. rewrite String.compare_antisym, Hlt. simpl.
    by rewrite IH.
Qed.

Lemma bytes_sorted_NoDup (l : list string) : StronglySorted bytes_lt l -> NoDup l.
Proof.
  induction l as [|x l IH]; intros Hs; [constructor|].
  apply StronglySorted_inv in Hs as [Hl Hx]. constructor; [|by apply IH].
  intros Hin. eapply Forall_forall in Hx; [|exact Hin].
  by apply bytes_lt_irrefl in Hx.
Qed.

Lemma LMDBStorage_append_val_inv (self : LMDBStorage) (key : string)
    (v : pyval) (w w1 : world) :
  primed (l_c self) seed w ->
  LMDBStorage_append_val self key v w = (Returned tt, w1) ->
  exists t,
    json_dumps v = Some t
    /\ key <> ""
    /\ primed (l_c self) seed w1
    /\ lmdb_table self w1 =
         <[key := dup_insert (compress_out seed t)
                    (default [] (lmdb_table self w !! key))]> (lmdb_table self w).
Proof.
  intros Hp H. destruct (json_dumps v) as [t|] eqn:Hjson.
  - exists t. split; [done|]. by eapply LMDBStorage_append_val_returned.
  - unfold LMDBStorage_append_val, dumps in H. rewrite Hjson in H. discriminate.
Qed.

Lemma append_all_lmdb (self : LMDBStorage) (k : string)
    (items : list (string * pyval)) :
  forall (w w' : world) (vs : list pyval),
    primed (l_c self) seed w ->
    lmdb_holds self w k vs ->
    append_all (BLMDB self) items w = (Returned tt, w') ->
    primed (l_c self) seed w'
    /\ lmdb_holds self w' k (vs ++ values_of k items).
Proof.
  induction items as [|[key val] rest IH]; intros w w' vs Hp Hh H.
  - injection H as <-. unfold values_of. simpl. by rewrite app_nil_r.
  - simpl in H. unfold bind in H.
    destruct (LMDBStorage_append_val self key val w) as [[[]| |] w1] eqn:E;
      [|discriminate..].
    destruct (LMDBStorage_append_val_inv _ _ _ _ _ Hp E)
      as (t & Hjson & Hkey & Hp1 & Htbl).
    assert (lmdb_holds self w1 k (vs ++ values_of k [(key, val)])) as Hh1.
    { unfold lmdb_holds in *. rewrite Htbl. destruct Hh as [Hs Hel].
      unfold values_of. rewrite filter_cons, filter_nil. simpl.
      case_decide as Hd.
      - subst key. rewrite lookup_insert_eq. simpl. split.
        + by apply dup_insert_sorted.
        + intros c. rewrite dup_insert_elem, Hel. split.
          * intros [->|(v & t' & Hv & Hj & ->)].
            -- exists val, t. rewrite elem_of_app, list_elem_of_singleton. auto.
            -- exists v, t'. rewrite elem_of_app. auto.
          * intros (v & t' & Hv & Hj & ->).
            apply elem_of_app in Hv as [Hv|Hv]; [right; eauto|].
            apply list_elem_of_singleton in Hv as ->. left. congruence.
      - rewrite lookup_insert_ne by done. simpl. by rewrite app_nil_r. }
    destruct (IH w1 w' _ Hp1 Hh1 H) as [Hp' Hh'].
    split; [done|]. rewrite <- app_assoc in Hh'.
    replace (values_of k ((key, val) :: rest))
      with (values_of k [(key, val)] ++ values_of k rest); [done|].
    unfold values_of. change ((key, val) :: rest) with ([(key, val)] ++ rest).
    by rewrite filter_app, fmap_app.
Qed.

Lemma compressed_texts (cl : list string) :
  (forall c, c ∈ cl -> exists t, c = compress_out seed t) ->
  exists ts, cl = compress_out seed <$> ts.
Proof.
  induction cl as [|c cl IH]; intros H; [by exists []|].
  destruct (H c) as [t ->]; [apply elem_of_cons; by left|].
  destruct IH as [ts ->]; [intros c' Hc'; apply H, elem_of_cons; by right|].
  by exists (t :: ts).
Qed.

Lemma LMDBStorage_get_list_default (fuel : nat) (self : LMDBStorage) (key : string)
    (ts : list string) (w : world) :
  primed (l_c self) seed w ->
  key <> "" ->
  default [] (lmdb_table self w !! key) = compress_out seed <$> ts ->
  (get_list fuel (BLMDB self) key w).1 = Returned (PList (PStr <$> ts)).
Proof.
  intros Hp Hk Htbl. destruct (lmdb_table self w !! key) as [l|] eqn:Hl.
  - simpl in Htbl. subst l. by apply LMDBStorage_get_list_spec.
  - simpl in Htbl. symmetry in Htbl. apply fmap_nil_inv in Htbl as ->.
    by rewrite (get_list_absent fuel (BLMDB self) key w Hl).
Qed.

(** X5. The list of a key on the LMDB backend is a sorted set. After any
    sequence of [append_val] calls that all return, on a key [k] that
    was not in the sub-database, [get_list(k)] returns the JSON texts of
    the values appended under [k], each text once however often its
    value was appended, in the bytewise order of their compressed forms
    (not in the order of the calls). *)
Theorem lmdb_get_list_sorted_set
    (fuel1 fuel2 : nat) (config : cfgval) (w w0 w' : world)
    (self : LMDBStorage) (items : list (string * pyval)) (k : string) :
  LMDBStorage_init fuel1 config w = (Returned self, w0) ->
  key_absent (BLMDB self) k w0 ->
  k <> "" ->
  append_all (BLMDB self) items w0 = (Returned tt, w') ->
  exists ts : list string,
    (get_list fuel2 (BLMDB self) k w').1 = Returned (PList (PStr <$> ts))
    /\ NoDup ts
    /\ (forall t, t ∈ ts <->
           exists v, v ∈ values_of k items /\ json_dumps v = Some t)
    /\ StronglySorted bytes_lt (compress_out seed <$> ts).
Proof.
  intros Hinit Habs Hk Happ.
  pose proof (LMDBStorage_init_returned _ _ _ _ _ Hinit) as Hp0.
  assert (lmdb_holds self w0 k []) as Hh0.
  { simpl in Habs. fold (lmdb_table self w0) in Habs.
    unfold lmdb_holds. rewrite Habs. simpl. split; [constructor|].
    intros c. split; [by intros ?%elem_of_nil|].
    by intros (v & t & ?%elem_of_nil & _). }
  destruct (append_all_lmdb self k items w0 w' [] Hp0 Hh0 Happ) as [Hp' [Hs Hel]].
  simpl in Hel, Hs.
  destruct (compressed_texts (default [] (lmdb_table self w' !! k))) as [ts Hts].
  { intros c Hc. apply Hel in Hc as (v & t & _ & _ & ->). eauto. }
  assert (Inj (=) (=) (compress_out seed)) as Hinj
    by (intros ???; by apply (compress_out_inj seed)).
  exists ts. rewrite Hts in Hs, Hel. split_and!.
  - by apply LMDBStorage_get_list_default.
  - apply bytes_sorted_NoDup in Hs. by apply NoDup_fmap in Hs.
  - intros t. rewrite <- (list_elem_of_fmap_inj (compress_out seed)), Hel. split.
    + intros (v & t' & Hv & Hj & Heq). apply Hinj in Heq as <-. eauto.
    + intros (v & Hv & Hj). eauto.
  - done.
Qed.

(** X6. Appending again what is stored changes nothing. On the LMDB
    backend, once a sequence of [append_val] calls has returned on a key
    that was not in the sub-database, a further [append_val(k, v)] of a
    value [v] that was appended under [k] leaves the sub-database as it
    is. *)
Theorem lmdb_append_idempotent
    (fuel1 : nat) (config : cfgval) (w w0 w1 w2 : world)
    (self : LMDBStorage) (items : list (string * pyval)) (k : string) (v : pyval) :
  LMDBStorage_init fuel1 config w = (Returned self, w0) ->
  key_absent (BLMDB self) k w0 ->
  append_all (BLMDB self) items w0 = (Returned tt, w1) ->
  v ∈ values_of k items ->
  append_val (BLMDB self) k v w1 = (Returned tt, w2) ->
  lmdb_table self w2 = lmdb_table self w1.
Proof.
  intros Hinit Habs Happ Hv H2.
  pose proof (LMDBStorage_init_returned _ _ _ _ _ Hinit) as Hp0.
  assert (lmdb_holds self w0 k []) as Hh0.
  { simpl in Habs. fold (lmdb_table self w0) in Habs.
    unfold lmdb_holds. rewrite Habs. simpl. split; [constructor|].
    intros c. split; [by intros ?%elem_of_nil|].
    by intros (v' & t & ?%elem_of_nil & _). }
  destruct (append_all_lmdb self k items w0 w1 [] Hp0 Hh0 Happ) as [Hp1 [Hs Hel]].
  simpl in Hel, Hs, H2.
  destruct (LMDBStorage_append_val_inv _ _ _ _ _ Hp1 H2)
    as (t & Hjson & _ & _ & ->).
  assert (compress_out seed t ∈ default [] (lmdb_table self w1 !! k)) as Hin.
  { apply Hel. eauto. }
  rewrite dup_insert_present by done.
  apply insert_id.
  destruct (lmdb_table self w1 !! k); [done|by apply elem_of_nil in Hin].
Qed.

(** ** More on the single-value slot *)

(** X8. [set_val] then [get_val]. On the in-memory and the Redis backend,
    [get_val(k)] after [set_val(k, v)] returns [v], whatever was under
    [k] before (a string or a list), and what [get_val] gives for another
    key is what it gave before. On the LMDB backend [set_val] raises
    [NotImplementedError] and writes nothing, and so does [get_val]; the
    sequence of the two therefore raises it as well. *)
Theorem set_val_then_get_val (b : backend) (key val : string) (w : world) :
  backend_live b w ->
  match b with
  | BLMDB _ =>
      set_val b key val w = (Raised NotImplementedError, w)
      /\ get_val b key w = (Raised NotImplementedError, w)
      /\ (set_val b key val ;;; get_val b key) w = (Raised NotImplementedError, w)
  | _ =>
      ((set_val b key val ;;; get_val b key) w).1 = Returned (PStr val)
      /\ forall key', key' <> key ->
           ((set_val b key val ;;; get_val b key') w).1 = (get_val b key' w).1
  end.
Proof.
  intros Hlive. destruct b as [s|s|s]; simpl in *.
  - destruct Hlive as [m Hm].
    unfold InMemoryStorage_set_val, InMemoryStorage_get_val, mem_deref.
    py_unfold. rewrite Hm. simpl. rewrite list_lookup_alter_eq, Hm. simpl.
    split; [by rewrite lookup_insert_eq|].
    intros key' Hne. rewrite lookup_insert_ne by done. by destruct (m !! key').
  - unfold RedisStorage_set_val, RedisStorage_get_val, StrictRedis_set,
      StrictRedis_get, keyspace, keyspace_put.
    py_unfold. simpl. rewrite lookup_insert_eq. simpl.
    split; [by rewrite lookup_insert_eq|].
    intros key' Hne. rewrite lookup_insert_ne by done.
    by destruct (default ∅ (w_redis w !! r_storage s) !! key') as [[?|?]|].
  - done.
Qed.

(** X9. No list under a key that holds a string. After [set_val(k, v)],
    [append_val(k, x)] raises ([AttributeError] on the in-memory backend,
    a Redis [ResponseError] on the Redis backend, given a value that
    [json.dumps] accepts) and [get_val(k)] still returns [v]. *)
Theorem append_val_after_set_val
    (b : backend) (key val : string) (x : pyval) (w : world) :
  backend_live b w ->
  match b with
  | BInMemory _ => True
  | BRedis s => primed (r_c s) seed w /\ is_Some (json_dumps x)
  | BLMDB _ => False
  end ->
  ((set_val b key val ;;; append_val b key x) w).1
    = Raised (match b with
              | BInMemory _ => AttributeError
              | _ => redis_ResponseError
              end)
  /\ ((set_val b key val ;;;
       attempt (append_val b key x) ;;;
       get_val b key) w).1 = Returned (PStr val).
Proof.
  intros Hlive Hb. destruct b as [s|s|s]; simpl in *; [| |done].
  - destruct Hlive as [m Hm].
    unfold attempt, InMemoryStorage_set_val, InMemoryStorage_append_val,
      InMemoryStorage_get_val, mem_deref.
    py_unfold. rewrite Hm. simpl. rewrite list_lookup_alter_eq, Hm. simpl.
    rewrite lookup_insert_eq. simpl.
    rewrite list_lookup_alter_eq, Hm. simpl. by rewrite lookup_insert_eq.
  - destruct Hb as [Hp [t Ht]].
    set (w1 := (set_val (BRedis s) key val w).2).
    assert (set_val (BRedis s) key val w = (Returned tt, w1)) as E1 by done.
    assert (primed (r_c s) seed w1) as Hp1 by by apply (primed_same_zlib _ _ w).
    assert (default ∅ (w_redis w1 !! r_storage s) !! key = Some (RString val)) as Hk.
    { simpl. rewrite lookup_insert_eq. simpl. by rewrite lookup_insert_eq. }
    destruct (Compressor_compress_spec (r_c s) seed t w1 Hp1)
      as (w2 & E2 & [_ (_ & _ & Hr2 & _)]).
    assert (append_val (BRedis s) key x w1 = (Raised redis_ResponseError, w2)) as E3.
    { simpl. unfold RedisStorage_append_val, dumps. rewrite Ht.
      unfold bind at 1. unfold ret at 1. rewrite (bind_returned _ _ _ _ _ E2).
      unfold StrictRedis_rpush, keyspace. py_unfold. by rewrite Hr2, Hk. }
    simpl in E1, E3.
    rewrite !(bind_returned _ _ _ _ _ E1). split.
    + by rewrite E3.
    + unfold bind at 1. unfold attempt. rewrite E3. simpl.
      unfold RedisStorage_get_val, StrictRedis_get, keyspace. py_unfold.
      by rewrite Hr2, Hk.
Qed.

(** ** More on the factory: how construction fails, and namespaces *)

(** X11. How the construction of a backend fails. With no ['dict'] in the
    configuration: when the value under the chosen kind, ['redis'] or,
    without ['redis'], ['lmdb'], is not a dictionary the factory raises
    [TypeError] and has written nothing;
    when the client library is not installed it raises [ImportError],
    and when the LMDB configuration has no ['path'] it raises
    [KeyError], in both cases after it has written ['db'] into the
    caller's configuration. *)
Theorem storage_failures
    (fuel : nat) (storage_config : nat) (index : Z) (w : world)
    (m : gmap string cfgval) :
  w_dicts w !! storage_config = Some m ->
  m !! "dict" = None ->
  (forall v, m !! "redis" = Some v -> (forall l, v <> CObj l) ->
     storage fuel storage_config index w = (Raised TypeError, w))
  /\ (forall v, m !! "redis" = None -> m !! "lmdb" = Some v ->
        (forall l, v <> CObj l) ->
        storage fuel storage_config index w = (Raised TypeError, w))
  /\ (forall l sub,
        m !! "redis" = Some (CObj l) -> w_dicts w !! l = Some sub ->
        w_redis_module w = false ->
        storage fuel storage_config index w =
          (Raised (ImportError "redis-py is required to use Redis as storage."),
           set_dicts (fun h => <[l := <["db" := CInt index]> sub]> h) w))
  /\ (forall l sub,
        m !! "redis" = None -> m !! "lmdb" = Some (CObj l) ->
        w_dicts w !! l = Some sub -> w_lmdb_module w = false ->
        storage fuel storage_config index w =
          (Raised (ImportError "lmdb is required to use lmdb as storage."),
           set_dicts (fun h => <[l := <["db" := CStr (pretty index)]> sub]> h) w))
  /\ (forall l sub,
        m !! "redis" = None -> m !! "lmdb" = Some (CObj l) ->
        w_dicts w !! l = Some sub -> w_lmdb_module w = true ->
        sub !! "path" = None ->
        storage fuel storage_config index w =
          (Raised (KeyError "path"),
           set_dicts (fun h => <[l := <["db" := CStr (pretty index)]> sub]> h) w)).
Proof.
  intros Hm Hd. unfold storage.
  rewrite (bind_returned _ _ _ _ _ (dict_contains_eq _ "dict" _ _ Hm)).
  rewrite (bool_decide_is_Some_None _ Hd).
  rewrite (bind_returned _ _ _ _ _ (dict_contains_eq _ "redis" _ _ Hm)).
  split_and!.
  - intros v Hr Hv. rewrite bool_decide_is_Some_Some by eauto.
    rewrite (bind_returned _ _ _ _ _ (dict_getitem_eq _ _ _ _ _ Hm Hr)).
    apply bind_raised. destruct v as [| |l]; [done..|]. by destruct (Hv l).
  - intros v Hr Hl Hv. rewrite (bool_decide_is_Some_None _ Hr).
    rewrite (bind_returned _ _ _ _ _ (dict_contains_eq _ "lmdb" _ _ Hm)).
    rewrite bool_decide_is_Some_Some by eauto.
    rewrite (bind_returned _ _ _ _ _ (dict_getitem_eq _ _ _ _ _ Hm Hl)).
    apply bind_raised. destruct v as [| |l]; [done..|]. by destruct (Hv l).
  - intros l sub Hr Hsub Hmod. rewrite bool_decide_is_Some_Some by eauto.
    rewrite (bind_returned _ _ _ _ _ (dict_getitem_eq _ _ _ _ _ Hm Hr)).
    rewrite (bind_returned _ _ _ _ _ (dict_setitem_eq _ _ _ _ _ Hsub)).
    destruct (dicts_after_setitem w storage_config l m sub "redis" (CObj l)
                (CInt index) Hm Hsub) as (m1 & Hm1 & Hr1); [done..|].
    rewrite (bind_returned _ _ _ _ _ (dict_getitem_eq _ _ (set_dicts _ w) _ _ Hm1 Hr1)).
    apply bind_raised. unfold RedisStorage_init. py_unfold. simpl.
    by rewrite Hmod.
  - intros l sub Hr Hl Hsub Hmod. rewrite (bool_decide_is_Some_None _ Hr).
    rewrite (bind_returned _ _ _ _ _ (dict_contains_eq _ "lmdb" _ _ Hm)).
    rewrite bool_decide_is_Some_Some by eauto.
    rewrite (bind_returned _ _ _ _ _ (dict_getitem_eq _ _ _ _ _ Hm Hl)).
    rewrite (bind_returned _ _ _ _ _ (dict_setitem_eq _ _ _ _ _ Hsub)).
    destruct (dicts_after_setitem w storage_config l m sub "lmdb" (CObj l)
                (CStr (pretty index)) Hm Hsub) as (m1 & Hm1 & Hl1); [done..|].
    rewrite (bind_returned _ _ _ _ _ (dict_getitem_eq _ _ (set_dicts _ w) _ _ Hm1 Hl1)).
    apply bind_raised. unfold LMDBStorage_init. py_unfold. simpl.
    by rewrite Hmod.
  - intros l sub Hr Hl Hsub Hmod Hpath. rewrite (bool_decide_is_Some_None _ Hr).
    rewrite (bind_returned _ _ _ _ _ (dict_contains_eq _ "lmdb" _ _ Hm)).
    rewrite bool_decide_is_Some_Some by eauto.
    rewrite (bind_returned _ _ _ _ _ (dict_getitem_eq _ _ _ _ _ Hm Hl)).
    rewrite (bind_returned _ _ _ _ _ (dict_setitem_eq _ _ _ _ _ Hsub)).
    destruct (dicts_after_setitem w storage_config l m sub "lmdb" (CObj l)
                (CStr (pretty index)) Hm Hsub) as (m1 & Hm1 & Hl1); [done..|].
    rewrite (bind_returned _ _ _ _ _ (dict_getitem_eq _ _ (set_dicts _ w) _ _ Hm1 Hl1)).
    apply bind_raised.
    unfold LMDBStorage_init, dict_getitem, dict_deref. py_unfold. simpl.
    rewrite Hmod. simpl.
    rewrite list_lookup_insert_eq by (by eapply lookup_lt_Some). simpl.
    rewrite lookup_insert_ne by done. by rewrite Hpath.
Qed.

Lemma LMDBStorage_init_names (fuel : nat) (config : cfgval)
    (w w0 : world) (self : LMDBStorage) :
  LMDBStorage_init fuel config w = (Returned self, w0) ->
  exists l m,
    config = CObj l /\ w_dicts w !! l = Some m
    /\ m !! "path" = Some (CStr (l_env self))
    /\ m !! "db" = Some (CStr (l_storage self)).
Proof.
  unfold LMDBStorage_init, dict_getitem, dict_deref, Environment_open_db. py_unfold.
  destruct (w_lmdb_module w); simpl; [|discriminate].
  destruct config as [| |l]; try discriminate.
  destruct (w_dicts w !! l) as [m|] eqn:Hd; simpl; [|discriminate].
  destruct (m !! "path") as [[|p|]|] eqn:Hp; simpl; try discriminate.
  rewrite Hd. simpl.
  destruct (m !! "db") as [[|d|]|] eqn:Hdb; simpl; try discriminate.
  match goal with
  | |- context [Compressor_init fuel seed ?w1] =>
      destruct (Compressor_init_spec fuel seed w1) as (c & w' & E & _);
      rewrite E
  end.
  intros [= <- <-]. by exists l, m.
Qed.

Lemma storage_returned_inv
    (fuel : nat) (storage_config : nat) (index : Z) (w w' : world) (b : backend) :
  storage fuel storage_config index w = (Returned b, w') ->
  match b with
  | BInMemory s =>
      im_storage s = List.length (w_mem w) /\ w_mem w' = w_mem w ++ [∅]
  | BRedis s => r_storage s = index /\ w_mem w' = w_mem w
  | BLMDB s => l_storage s = pretty index /\ w_mem w' = w_mem w
  end.
Proof.
  unfold storage. intros H.
  apply bind_returned_inv in H as (has_dict & w1 & H1 & H).
  unfold dict_contains in H1.
  apply bind_returned_inv in H1 as (m & w1' & Hm & H1).
  injection H1 as <- <-.
  unfold dict_deref in Hm.
  apply bind_returned_inv in Hm as (o & w1 & Ho & Hm).
  injection Ho as <- <-.
  destruct (w_dicts w !! storage_config) as [m'|] eqn:Hcfg; [|discriminate].
  injection Hm as -> <-.
  destruct (bool_decide (is_Some (m !! "dict"))).
  { apply bind_returned_inv in H as (config & w2 & H2 & H).
    assert (w2 = w) as ->.
    { unfold dict_getitem, dict_deref in H2. revert H2. py_unfold.
      rewrite Hcfg. simpl. destruct (m !! "dict"); by intros [= _ <-]. }
    unfold InMemoryStorage_init in H. revert H. py_unfold.
    by intros [= <- <-]. }
  rewrite (bind_returned _ _ _ _ _ (dict_contains_eq _ "redis" _ _ Hcfg)) in H.
  destruct (bool_decide (is_Some (m !! "redis"))).
  { apply bind_returned_inv in H as (sub & w2 & H2 & H).
    assert (w2 = w /\ m !! "redis" = Some sub) as [-> Hr].
    { unfold dict_getitem, dict_deref in H2. revert H2. py_unfold.
      rewrite Hcfg. simpl. destruct (m !! "redis"); by intros [= <- <-]. }
    apply bind_returned_inv in H as ([] & w3 & H3 & H).
    destruct sub as [| |l]; [discriminate..|].
    destruct (w_dicts w !! l) as [sd|] eqn:Hsub; cycle 1.
    { unfold dict_setitem, dict_deref in H3. revert H3. py_unfold.
      by rewrite Hsub. }
    rewrite (dict_setitem_eq _ _ _ _ _ Hsub) in H3. injection H3 as <-.
    destruct (dicts_after_setitem w storage_config l m sd "redis" (CObj l)
                (CInt index) Hcfg Hsub) as (m1 & Hm1 & Hr1); [done..|].
    rewrite (bind_returned _ _ _ _ _
               (dict_getitem_eq _ _ (set_dicts _ w) _ _ Hm1 Hr1)) in H.
    apply bind_returned_inv in H as (s & w4 & H4 & H).
    injection H as <- <-.
    destruct (RedisStorage_init_client _ _ _ _ _ H4) as (l' & kw & [= <-] & Hkw & ->).
    destruct (RedisStorage_init_returned _ _ _ _ _ H4) as [_ [_ (_ & Hmem & _)]].
    simpl in Hkw, Hmem.
    rewrite list_lookup_insert_eq in Hkw by (by eapply lookup_lt_Some).
    injection Hkw as <-. split; [|done].
    unfold StrictRedis. by rewrite lookup_insert_eq. }
  rewrite (bind_returned _ _ _ _ _ (dict_contains_eq _ "lmdb" _ _ Hcfg)) in H.
  destruct (bool_decide (is_Some (m !! "lmdb"))); [|discriminate].
  apply bind_returned_inv in H as (sub & w2 & H2 & H).
  assert (w2 = w /\ m !! "lmdb" = Some sub) as [-> Hr].
  { unfold dict_getitem, dict_deref in H2. revert H2. py_unfold.
    rewrite Hcfg. simpl. destruct (m !! "lmdb"); by intros [= <- <-]. }
  apply bind_returned_inv in H as ([] & w3 & H3 & H).
  destruct sub as [| |l]; [discriminate..|].
  destruct (w_dicts w !! l) as [sd|] eqn:Hsub; cycle 1.
  { unfold dict_setitem, dict_deref in H3. revert H3. py_unfold.
    by rewrite Hsub. }
  rewrite (dict_setitem_eq _ _ _ _ _ Hsub) in H3. injection H3 as <-.
  destruct (dicts_after_setitem w storage_config l m sd "lmdb" (CObj l)
              (CStr (pretty index)) Hcfg Hsub) as (m1 & Hm1 & Hr1); [done..|].
  rewrite (bind_returned _ _ _ _ _
             (dict_getitem_eq _ _ (set_dicts _ w) _ _ Hm1 Hr1)) in H.
  apply bind_returned_inv in H as (s & w4 & H4 & H).
  injection H as <- <-.
  destruct (LMDBStorage_init_names _ _ _ _ _ H4) as (l' & kw & [= <-] & Hkw & _ & Hdb).
  simpl in Hkw.
  rewrite list_lookup_insert_eq in Hkw by (by eapply lookup_lt_Some).
  injection Hkw as <-. rewrite lookup_insert_eq in Hdb. injection Hdb as <-.
  split; [done|].
  assert (preserves (fun w0 => w_mem w0 = w_mem w) (LMDBStorage_init fuel (CObj l)))
    as Hpres.
  { assert (store_pred (fun w0 => w_mem w0 = w_mem w)) as HP
      by (intros ? ? (_ & Hmm & _) ?; by rewrite Hmm).
    pose proof (preserves_Compressor_init _ HP).
    assert (forall env db, preserves (fun w0 => w_mem w0 = w_mem w)
                             (Environment_open_db env db))
      by (intros; by apply preserves_modify).
    unfold LMDBStorage_init, dict_getitem, dict_deref. pres. }
  match type of H4 with
  | LMDBStorage_init _ _ ?w1 = _ => specialize (Hpres w1 eq_refl)
  end.
  by rewrite H4 in Hpres.
Qed.

(** X12. The index is the namespace. The backend that the factory returns
    is, for ['dict'], an in-memory backend with a dictionary of its own;
    for ['redis'], a client of the database whose number is the index;
    for ['lmdb'], a backend on the sub-database named by the decimal
    text of the index. *)
Theorem storage_returned
    (fuel : nat) (storage_config : nat) (index : Z) (w w' : world) (b : backend) :
  storage fuel storage_config index w = (Returned b, w') ->
  match b with
  | BInMemory s =>
      im_storage s = List.length (w_mem w) /\ w_mem w' = w_mem w ++ [∅]
  | BRedis s => r_storage s = index /\ w_mem w' = w_mem w
  | BLMDB s => l_storage s = pretty index /\ w_mem w' = w_mem w
  end.
Proof. apply storage_returned_inv. Qed.

Lemma same_view_store_pred (b : backend) (w : world) :
  store_pred (same_view b w).
Proof.
  intros w1 w2 (_ & Hm & Hr & Hl & _) H.
  destruct b; simpl in *; unfold redis_keyspace, lmdb_table in *;
    by rewrite ?Hm, ?Hr, ?Hl.
Qed.

Lemma same_view_mem_write (s1 : InMemoryStorage) (b2 : backend) (w : world)
    (f : gmap string pyval -> gmap string pyval) :
  disjoint_backends (BInMemory s1) b2 ->
  preserves (same_view b2 w) (modify (set_mem (fun h => alter f (im_storage s1) h))).
Proof.
  intros Hdis. apply preserves_modify. intros w1 H.
  destruct b2 as [s2|s2|s2]; simpl in *; [|done..].
  by rewrite list_lookup_alter_ne.
Qed.

Lemma same_view_keyspace_put (s1 : RedisStorage) (b2 : backend) (w : world)
    (key : string) (v : redis_val) :
  disjoint_backends (BRedis s1) b2 ->
  preserves (same_view b2 w) (keyspace_put (r_storage s1) key v).
Proof.
  intros Hdis. apply preserves_modify. intros w1 H.
  destruct b2 as [s2|s2|s2]; simpl in *; [done| |done].
  unfold redis_keyspace in *. simpl. by rewrite lookup_insert_ne.
Qed.

Lemma same_view_Transaction_put (s1 : LMDBStorage) (b2 : backend) (w : world)
    (key val : string) :
  disjoint_backends (BLMDB s1) b2 ->
  preserves (same_view b2 w) (Transaction_put (l_env s1) (l_storage s1) key val).
Proof.
  intros Hdis w1 H. unfold Transaction_put, subdb. py_unfold.
  destruct (_ || _); [done|].
  destruct b2 as [s2|s2|s2]; simpl in *; [done..|].
  unfold lmdb_table in *. simpl. by rewrite lookup_insert_ne.
Qed.

(** X14. Calls on one backend do not reach the store of another. Whatever
    is called on a backend, the store behind a backend that does not
    share its dictionary, database or sub-database is left as it was. *)
Theorem backend_isolation
    (fuel : nat) (b1 b2 : backend) (cs : list call) (w : world) :
  disjoint_backends b1 b2 ->
  same_view b2 w (do_calls fuel b1 cs w).2.
Proof.
  intros Hdis.
  assert (forall c, preserves (same_view b2 w) (do_call fuel b1 c)) as Hcall.
  { intros c.
    pose proof (same_view_store_pred b2 w) as HP.
    pose proof (preserves_Compressor_compress _ HP).
    pose proof (preserves_Compressor_decompress _ HP).
    pose proof (preserves_dumps (same_view b2 w)).
    pose proof (fun fuel self rs =>
      preserves_for_each (same_view b2 w) (Compressor_decompress fuel self) rs
        (preserves_Compressor_decompress _ HP fuel self)).
    destruct c as [|key val|key|key val|key];
      destruct b1 as [s|s|s]; simpl;
      try pose proof (fun f => same_view_mem_write s b2 w f Hdis);
      try pose proof (fun key v => same_view_keyspace_put s b2 w key v Hdis);
      try pose proof (fun key v => same_view_Transaction_put s b2 w key v Hdis);
      unfold InMemoryStorage_keys, InMemoryStorage_set_val, InMemoryStorage_get_val,
        InMemoryStorage_append_val, InMemoryStorage_get_list, mem_deref,
        RedisStorage_keys, RedisStorage_set_val, RedisStorage_get_val,
        RedisStorage_append_val, RedisStorage_get_list,
        StrictRedis_keys, StrictRedis_set, StrictRedis_get, StrictRedis_rpush,
        StrictRedis_lrange, keyspace,
        LMDBStorage_keys, LMDBStorage_set_val, LMDBStorage_get_val,
        LMDBStorage_append_val, LMDBStorage_get_list,
        Cursor_set_key, Cursor_iternext_dup, subdb;
      pres. }
  assert (preserves (same_view b2 w) (do_calls fuel b1 cs)) as Hall.
  { induction cs as [|c cs IH]; simpl; [apply preserves_ret|].
    apply preserves_bind; [|intros _; exact IH].
    apply preserves_attempt, Hcall. }
  apply Hall. by destruct b2.
Qed.

(** X13. Backends built for different indexes are apart. Two backends
    that the factory returns, one call after the other, do not share a
    store when the two indexes differ; two in-memory backends never do,
    whatever the indexes. *)
Theorem storage_backends_disjoint
    (fuel1 fuel2 : nat) (config1 config2 : nat) (i j : Z)
    (w w1 w2 : world) (b1 b2 : backend) :
  storage fuel1 config1 i w = (Returned b1, w1) ->
  storage fuel2 config2 j w1 = (Returned b2, w2) ->
  match b1 with BInMemory _ => True | _ => i <> j end ->
  disjoint_backends b1 b2.
Proof.
  intros H1 H2 Hij.
  apply storage_returned_inv in H1. apply storage_returned_inv in H2.
  destruct b1 as [s1|s1|s1], b2 as [s2|s2|s2]; simpl; try done.
  - destruct H1 as [-> Hm], H2 as [-> _]. rewrite Hm, length_app. simpl. lia.
  - destruct H1 as [-> _], H2 as [-> _]. done.
  - destruct H1 as [-> _], H2 as [-> _]. intros [= _ Heq].
    by apply (inj pretty) in Heq.
Qed.

(** X15. Reading does not write. [keys], [get_val] and [get_list] leave
    every store as it was, on each backend and whatever their outcome;
    in particular [get_list] on a key that is not there does not create
    it. *)
Theorem reads_do_not_write (fuel : nat) (b : backend) (c : call) (w : world) :
  match c with
  | CallKeys | CallGetVal _ | CallGetList _ => True
  | _ => False
  end ->
  same_stores w (do_call fuel b c w).2.
Proof.
  intros Hc.
  assert (store_pred (same_stores w)) as HP.
  { intros w1 w2 (?&?&?&?&?&?) (?&?&?&?&?&?). repeat split; congruence. }
  assert (preserves (same_stores w) (do_call fuel b c)) as Hpres.
  { pose proof (preserves_Compressor_decompress _ HP).
    pose proof (fun fuel self rs =>
      preserves_for_each (same_stores w) (Compressor_decompress fuel self) rs
        (preserves_Compressor_decompress _ HP fuel self)).
    destruct c as [|key val|key|key val|key]; try done;
      destruct b as [s|s|s]; simpl;
      unfold InMemoryStorage_keys, InMemoryStorage_get_val,
        InMemoryStorage_get_list, mem_deref,
        RedisStorage_keys, RedisStorage_get_val, RedisStorage_get_list,
        StrictRedis_keys, StrictRedis_get, StrictRedis_lrange, keyspace,
        LMDBStorage_keys, LMDBStorage_get_val, LMDBStorage_get_list,
        Cursor_set_key, Cursor_iternext_dup, subdb;
      pres. }
  apply Hpres. by repeat split.
Qed.

Lemma preserves_dicts_append_all_lmdb (D : list (gmap string cfgval))
    (self : LMDBStorage) (items : list (string * pyval)) :
  preserves (fun w => w_dicts w = D) (append_all (BLMDB self) items).
Proof.
  pose proof (dicts_store_pred D) as HP.
  pose proof (preserves_Compressor_compress _ HP).
  pose proof (preserves_dumps (fun w => w_dicts w = D)).
  assert (forall env db key val,
            preserves (fun w => w_dicts w = D) (Transaction_put env db key val)).
  { intros env db key val w Hw. unfold Transaction_put, subdb. py_unfold.
    by destruct (_ || _). }
  induction items as [|[key val] rest IH]; simpl; [apply preserves_ret|].
  apply preserves_bind; [|intros _; exact IH].
  unfold LMDBStorage_append_val. pres.
Qed.

(** X7. What was appended is there when the sub-database is opened
    again. After a sequence of [append_val] calls that all return, a
    second LMDB backend built from the same configuration reads under
    [k] what the first one reads. *)
Theorem lmdb_reopen
    (fuel1 fuel2 fuel3 : nat) (config : cfgval) (w w0 w1 w2 : world)
    (s1 s2 : LMDBStorage) (items : list (string * pyval)) (k : string) :
  LMDBStorage_init fuel1 config w = (Returned s1, w0) ->
  key_absent (BLMDB s1) k w0 ->
  k <> "" ->
  append_all (BLMDB s1) items w0 = (Returned tt, w1) ->
  LMDBStorage_init fuel2 config w1 = (Returned s2, w2) ->
  exists ts : list string,
    (get_list fuel3 (BLMDB s1) k w1).1 = Returned (PList (PStr <$> ts))
    /\ (get_list fuel3 (BLMDB s2) k w2).1 = Returned (PList (PStr <$> ts)).
Proof.
  intros H1 Habs Hk Happ H2.
  pose proof (LMDBStorage_init_returned _ _ _ _ _ H1) as Hp0.
  pose proof (LMDBStorage_init_returned _ _ _ _ _ H2) as Hp2.
  assert (lmdb_holds s1 w0 k []) as Hh0.
  { simpl in Habs. fold (lmdb_table s1 w0) in Habs.
    unfold lmdb_holds. rewrite Habs. simpl. split; [constructor|].
    intros c. split; [by intros ?%elem_of_nil|].
    by intros (v & t & ?%elem_of_nil & _). }
  destruct (append_all_lmdb s1 k items w0 w1 [] Hp0 Hh0 Happ) as [Hp1 [Hs Hel]].
  destruct (compressed_texts (default [] (lmdb_table s1 w1 !! k))) as [ts Hts].
  { intros c Hc. apply Hel in Hc as (v & t & _ & _ & ->). eauto. }
  exists ts. split; [by apply LMDBStorage_get_list_default|].
  apply LMDBStorage_get_list_default; [done..|].
  rewrite <- Hts. f_equal. f_equal.
  destruct (LMDBStorage_init_names _ _ _ _ _ H1) as (l & m & -> & Hm & Hpath & Hdb).
  destruct (LMDBStorage_init_names _ _ _ _ _ H2) as (l' & m' & [= <-] & Hm' & Hpath' & Hdb').
  assert (w_dicts w0 = w_dicts w) as Hd0.
  { pose proof (preserves_dicts_LMDBStorage_init (w_dicts w) fuel1 (CObj l) w eq_refl)
      as H. by rewrite H1 in H. }
  assert (w_dicts w1 = w_dicts w) as Hd1.
  { pose proof (preserves_dicts_append_all_lmdb (w_dicts w) s1 items w0 Hd0) as H.
    by rewrite Happ in H. }
  rewrite Hd1, Hm in Hm'. injection Hm' as <-.
  rewrite Hpath in Hpath'. rewrite Hdb in Hdb'.
  injection Hpath' as Henv. injection Hdb' as Hsto.
  unfold lmdb_table. rewrite <- Henv, <- Hsto.
  revert H2. unfold LMDBStorage_init, dict_getitem, dict_deref,
    Environment_open_db. py_unfold.
  destruct (w_lmdb_module w1); simpl; [|discriminate].
  rewrite Hd1, Hm. simpl. rewrite Hpath. simpl. rewrite Hd1, Hm. simpl.
  rewrite Hdb. simpl.
  match goal with
  | |- context [Compressor_init fuel2 seed ?wx] =>
      destruct (Compressor_init_spec fuel2 seed wx)
        as (c & w' & E & _ & [_ (_ & _ & _ & Hl & _)]);
      rewrite E
  end.
  intros [= _ <-]. rewrite Hl. simpl. rewrite lookup_insert_eq. simpl.
  by destruct (w_lmdb w1 !! (l_env s1, l_storage s1)).
Qed.

End Proofs.

(** ** The reference instances satisfy the laws *)

Lemma str_app_cons (a : ascii) (s t : string) :
  String a s +:+ t = String a (s +:+ t).
Proof. reflexivity. Qed.

Lemma lit_inflate_app (st : Ref.lit_inflate_state) (a b : string) :
  Ref.lit_inflate st (a +:+ b) =
    match Ref.lit_inflate st a with
    | Some (st1, y1) =>
        match Ref.lit_inflate st1 b with
        | Some (st2, y2) => Some (st2, y1 +:+ y2)
        | None => None
        end
    | None => None
    end.
Proof.
  revert st. induction a as [|x a IH]; intros st.
  - rewrite str_app_nil_l. simpl. by destruct (Ref.lit_inflate st b) as [[? ?]|].
  - rewrite str_app_cons. destruct st; simpl;
      repeat (case_match; try done); try apply IH.
    all: rewrite IH in *; repeat (case_match; simplify_eq; try done).
Qed.

Lemma lit_inflate_encode (s rest : string) :
  Ref.lit_inflate Ref.LTag (Ref.lit_encode s +:+ rest) =
    match Ref.lit_inflate Ref.LTag rest with
    | Some (st, y) => Some (st, s +:+ y)
    | None => None
    end.
Proof.
  induction s as [|x s IH]; simpl.
  - rewrite str_app_nil_l. by destruct (Ref.lit_inflate _ rest) as [[? ?]|].
  - rewrite ?str_app_cons. simpl. rewrite IH.
    by destruct (Ref.lit_inflate _ rest) as [[? ?]|].
Qed.

Lemma lit_flush_decodes (c : Ref.lit_deflate_state) (x : string) (m : flush_mode) :
  is_flush m = true ->
  Ref.lit_inflate (Ref.lit_reader c) (Ref.lit_deflate c x m).2 =
    Some (if is_finish m then Ref.LDone else Ref.LTag, Ref.lit_pending c +:+ x).
Proof.
  intros Hm. destruct c as [hd p]. unfold Ref.lit_reader. simpl.
  destruct m; [done| |]; destruct hd; simpl;
    rewrite ?str_app_nil_l, ?str_app_cons; simpl;
    rewrite ?str_app_nil_l, lit_inflate_encode; simpl;
    by rewrite str_app_nil_r.
Qed.

Lemma lit_run_decodes (steps : list (string * flush_mode)) (c : Ref.lit_deflate_state) :
  well_flushed steps = true ->
  exists st,
    Ref.lit_inflate (Ref.lit_reader c) (deflate_run (zops := Ref.lit_zlib) c steps).2 =
      Some (st, Ref.lit_pending c +:+ plain_of steps).
Proof.
  revert c. induction steps as [|[x m] rest IH]; intros c Hwf; [done|].
  destruct rest as [|s2 rest].
  - simpl in Hwf. simpl deflate_run. simpl plain_of.
    change (@deflate Ref.lit_zlib) with Ref.lit_deflate.
    pose proof (lit_flush_decodes c x m Hwf) as H.
    destruct (Ref.lit_deflate c x m) as [c1 o1]. simpl in H |- *.
    rewrite !str_app_nil_r. eauto.
  - assert (is_finish m = false /\ well_flushed (s2 :: rest) = true) as [Hm Hrest].
    { simpl in Hwf. apply andb_true_iff in Hwf as [H1 H2].
      split; [by destruct (is_finish m)|done]. }
    specialize (IH (Ref.lit_deflate c x m).1 Hrest) as [st IH].
    change (deflate_run (zops := Ref.lit_zlib) c ((x, m) :: s2 :: rest)) with
      (let '(st1, o1) := Ref.lit_deflate c x m in
       let '(st2, o2) := deflate_run (zops := Ref.lit_zlib) st1 (s2 :: rest) in
       (st2, o1 +:+ o2)).
    change (plain_of ((x, m) :: s2 :: rest)) with (x +:+ plain_of (s2 :: rest)).
    set (P := plain_of (s2 :: rest)) in *.
    pose proof (lit_flush_decodes c x m) as Hfl.
    destruct (Ref.lit_deflate c x m) as [c1 o1] eqn:E. cbn [fst snd] in *.
    destruct (deflate_run (zops := Ref.lit_zlib) c1 (s2 :: rest)) as [c2 o2].
    cbn [fst snd] in *. rewrite lit_inflate_app.
    destruct m; [| |done].
    + destruct c as [hd p]. simpl in E. simplify_eq. simpl.
      unfold Ref.lit_reader in *. simpl in *. rewrite IH, str_app_assoc. eauto.
    + rewrite Hfl by done.
      assert (Ref.lit_reader c1 = Ref.LTag /\ Ref.lit_pending c1 = "") as [Hr Hp].
      { destruct c. simpl in E. by simplify_eq. }
      rewrite Hr, Hp in IH. simpl. rewrite IH, str_app_nil_l, str_app_assoc. eauto.
Qed.

Lemma lit_zlib_laws : ZlibLaws Ref.lit_zlib.
Proof.
  split.
  - apply lit_inflate_app.
  - intros level steps Hwf.
    destruct (lit_run_decodes steps (deflateInit (ZlibOps := Ref.lit_zlib) level) Hwf)
      as [st H].
    exists st. simpl in H. by rewrite str_app_nil_l in H.
Qed.

Lemma glob_star (s : string) : Ref.glob "*" s = true.
Proof. induction s as [|a s IH]; [done|]. simpl in *. by rewrite IH. Qed.

Lemma glob_redis_laws : RedisLaws Ref.glob_redis.
Proof. split. apply glob_star. Qed.

(** ** The theorems on the reference instances, and what the code does
       where a sentence of the specification does not hold *)

Import Ref.

(** A compressor that has compressed two texts and failed on bytes that
    are no deflate stream still gives the text back. *)
Lemma compress_decompress_round_trip_witness :
  ((c1 <- Compressor_init 0 seed ;;
    c2 <- Compressor_init 0 seed ;;
    do_zcalls 0 c1 [ZCompress "[3, 4]"; ZDecompress "junk"; ZCompress "[1, 2]"] ;;;
    do_zcalls 0 c2 [ZDecompress "junk"] ;;;
    ctext <- Compressor_compress c1 scenario_B_text ;;
    do_zcalls 0 c1 [ZDecompress "junk"; ZCompress "x"] ;;;
    do_zcalls 0 c2 [ZCompress "y"] ;;;
    t1 <- Compressor_decompress 0 c1 ctext ;;
    t2 <- Compressor_decompress 0 c2 ctext ;;
    t3 <- Compressor_decompress 0 c1 ctext ;;
    ret (t1, t2, t3)) empty_world).1
  = Returned (scenario_B_text, scenario_B_text, scenario_B_text).
Proof.
  exact (compress_decompress_round_trip (zlaws := lit_zlib_laws)
           0 0 0 0 0 seed scenario_B_text
           [ZCompress "[3, 4]"; ZDecompress "junk"; ZCompress "[1, 2]"]
           [ZDecompress "junk"]
           [ZDecompress "junk"; ZCompress "x"] [ZCompress "y"] empty_world).
Defined.

Lemma compress_deterministic_witness :
  exists out : string,
    ((c <- Compressor_init 0 seed ;;
      a <- Compressor_compress c "[1, 2]" ;;
      b <- Compressor_compress c "[1, 2]" ;;
      ret (a, b)) empty_world).1 = Returned (out, out)
    /\ ((c1 <- Compressor_init 0 seed ;;
         c2 <- Compressor_init 0 seed ;;
         a <- Compressor_compress c1 "[1, 2]" ;;
         b <- Compressor_compress c2 "[1, 2]" ;;
         ret (a, b)) empty_world).1 = Returned (out, out)
    /\ ((c <- Compressor_init 0 seed ;;
         Compressor_compress c "[1, 2]") config_world).1 = Returned out.
Proof.
  exact (compress_deterministic (zlaws := lit_zlib_laws)
           0 0 0 seed "[1, 2]" empty_world config_world).
Defined.

(** Scenario A. *)
Lemma in_memory_append_order_witness :
  ((s <- InMemoryStorage_init (CObj 1) ;;
    append_all (BInMemory s)
      [("k1", PList [PInt 1; PInt 2]); ("k1", PList [PInt 3; PInt 4])] ;;;
    get_list 0 (BInMemory s) "k1") config_world).1
  = Returned (PList [PList [PInt 1; PInt 2]; PList [PInt 3; PInt 4]]).
Proof.
  exact (in_memory_append_order 0 (CObj 1)
           [("k1", PList [PInt 1; PInt 2]); ("k1", PList [PInt 3; PInt 4])]
           "k1" config_world).
Defined.

Lemma get_list_never_written_witness :
  ((do_calls 0 (BLMDB lmdb_backend)
      [CallSetVal "j" "x"; CallAppendVal "j" (PInt 1); CallGetList "j"; CallKeys] ;;;
    get_list 0 (BLMDB lmdb_backend) "k") (storage 0 4 7 config_world).2).1
  = Returned (PList []).
Proof.
  apply (get_list_never_written 0 (BLMDB lmdb_backend) "k"
           [CallSetVal "j" "x"; CallAppendVal "j" (PInt 1); CallGetList "j"; CallKeys]
           (storage 0 4 7 config_world).2); [reflexivity|reflexivity|discriminate].
Defined.

(** What the code does instead of C7: on the in-memory backend a key
    that was set with [set_val], and never appended to, reads back as the
    value set, not as an empty list. *)
Lemma get_list_after_set_val :
  ((a <- storage 0 6 7 ;;
    set_val a "k" "x" ;;;
    get_list 0 a "k") config_world).1 = Returned (PStr "x")
  /\ ((a <- storage 0 6 7 ;;
       set_val a "k" "x" ;;;
       get_list 0 a "k") config_world).1 <> Returned (PList []).
Proof. split; [reflexivity|discriminate]. Qed.

(** On the Redis backend the list commands refuse a key that holds a
    string. *)
Lemma redis_get_list_after_set_val :
  ((r <- storage 0 3 7 ;;
    set_val r "k" "x" ;;;
    get_list 0 r "k") config_world).1 = Raised redis_ResponseError.
Proof. vm_compute. reflexivity. Qed.

Lemma get_val_absent_key_witness :
  key_absent (BRedis redis_backend) "k" (storage 0 3 7 config_world).2
  /\ get_val (BRedis redis_backend) "k" (storage 0 3 7 config_world).2
     = (Returned PNone, (storage 0 3 7 config_world).2).
Proof.
  split; [reflexivity|].
  apply (get_val_absent_key (BRedis redis_backend) "k"). reflexivity.
Defined.

(** What the code does instead of C4: on one absent key the three
    backends give three different outcomes. *)
Lemma get_val_differs_across_backends :
  ((a <- storage 0 6 7 ;;
    r <- storage 0 3 7 ;;
    l <- storage 0 4 7 ;;
    x <- observe (get_val a "k") ;;
    y <- observe (get_val r "k") ;;
    z <- observe (get_val l "k") ;;
    ret (x, y, z)) config_world).1
  = Returned (Raised (KeyError "k"), Returned PNone, Raised NotImplementedError).
Proof. vm_compute. reflexivity. Qed.

(** On stores that hold a string under ["a"] and a list under ["b"]:
    [keys()] of the in-memory and of the Redis backend lists both. *)
Lemma keys_by_backend_witness :
  (exists ks : list string,
     keys (BInMemory mem_backend) mem_used_world
       = (Returned (PList (PStr <$> ks)), mem_used_world)
     /\ NoDup ks /\ "a" ∈ ks /\ "b" ∈ ks /\ "c" ∉ ks)
  /\ (exists ks : list string,
        keys (BRedis redis_backend) redis_used_world
          = (Returned (PList (PStr <$> ks)), redis_used_world)
        /\ NoDup ks /\ "a" ∈ ks /\ "b" ∈ ks /\ "c" ∉ ks).
Proof.
  split.
  - destruct (keys_by_backend (rlaws := glob_redis_laws) (BInMemory mem_backend)
                mem_used_world) as (ks & E & ND & Hk).
    { vm_compute. eexists. reflexivity. }
    exists ks. split_and!; [exact E | exact ND | | |].
    + apply Hk. vm_compute. eexists. split; [reflexivity|]. eexists. reflexivity.
    + apply Hk. vm_compute. eexists. split; [reflexivity|]. eexists. reflexivity.
    + intros [m [Hm [v Hv]]]%Hk. vm_compute in Hm. injection Hm as <-.
      vm_compute in Hv. discriminate.
  - destruct (keys_by_backend (rlaws := glob_redis_laws) (BRedis redis_backend)
                redis_used_world I) as (ks & E & ND & Hk).
    exists ks. split_and!; [exact E | exact ND | | |].
    + apply Hk. vm_compute. eexists. reflexivity.
    + apply Hk. vm_compute. eexists. reflexivity.
    + intros [v Hv]%Hk. vm_compute in Hv. discriminate.
Defined.

(** What the code does instead of C5: [keys()] on the LMDB backend
    raises. *)
Lemma lmdb_keys_raises :
  ((l <- storage 0 4 7 ;; keys l) config_world).1 = Raised NotImplementedError.
Proof. vm_compute. reflexivity. Qed.



Lemma lmdb_two_appends_witness :
  exists l : list pyval,
    (get_list 0 (BLMDB lmdb_backend) "k"
       (append_val (BLMDB lmdb_backend) "k" (PInt 2)
          (append_val (BLMDB lmdb_backend) "k" (PInt 1)
             (storage 0 4 7 config_world).2).2).2).1 = Returned (PList l)
    /\ List.length l = 2%nat
    /\ l ≡ₚ [PStr "1"; PStr "2"].
Proof.
  apply (lmdb_two_appends (zlaws := lit_zlib_laws) 0 0 (CObj 5)
           (dict_setitem (CObj 5) "db" (CStr "7") config_world).2
           (storage 0 4 7 config_world).2
           (append_val (BLMDB lmdb_backend) "k" (PInt 1)
              (storage 0 4 7 config_world).2).2
           (append_val (BLMDB lmdb_backend) "k" (PInt 2)
              (append_val (BLMDB lmdb_backend) "k" (PInt 1)
                 (storage 0 4 7 config_world).2).2).2
           lmdb_backend "k" (PInt 1) (PInt 2) "1" "2").
  - vm_compute. reflexivity.
  - reflexivity.
  - reflexivity.
  - reflexivity.
  - discriminate.
  - vm_compute. reflexivity.
  - vm_compute. reflexivity.
Defined.

(** C9, at the input where the code departs from it. On the LMDB backend
    that the factory builds, [append_val("k", [1, 2])] twice on a key
    under which nothing is stored, then [get_list("k")]: both appends
    return, and the list that comes back has one entry, not two. The
    sub-database is opened with [dupsort=True], which stores a key/value
    pair once; [BaseStorage.append_val] documents an append to the list
    under the key, and the in-memory and the Redis backend keep both
    entries. *)
Lemma lmdb_same_value_twice :
  ((l <- storage 0 4 7 ;;
    append_val l "k" (PList [PInt 1; PInt 2]) ;;;
    append_val l "k" (PList [PInt 1; PInt 2]) ;;;
    get_list 0 l "k") config_world).1 = Returned (PList [PStr "[1, 2]"])
  /\ match ((l <- storage 0 4 7 ;;
             append_val l "k" (PList [PInt 1; PInt 2]) ;;;
             append_val l "k" (PList [PInt 1; PInt 2]) ;;;
             get_list 0 l "k") config_world).1 with
     | Returned (PList l) => Some (List.length l)
     | _ => None
     end = Some 1%nat
  /\ ((r <- storage 0 3 7 ;;
       append_val r "k" (PList [PInt 1; PInt 2]) ;;;
       append_val r "k" (PList [PInt 1; PInt 2]) ;;;
       get_list 0 r "k") config_world).1
     = Returned (PList [PStr "[1, 2]"; PStr "[1, 2]"])
  /\ ((d <- storage 0 6 7 ;;
       append_val d "k" (PList [PInt 1; PInt 2]) ;;;
       append_val d "k" (PList [PInt 1; PInt 2]) ;;;
       get_list 0 d "k") config_world).1
     = Returned (PList [PList [PInt 1; PInt 2]; PList [PInt 1; PInt 2]]).
Proof.
  assert (((l <- storage 0 4 7 ;;
            append_val l "k" (PList [PInt 1; PInt 2]) ;;;
            append_val l "k" (PList [PInt 1; PInt 2]) ;;;
            get_list 0 l "k") config_world).1 = Returned (PList [PStr "[1, 2]"])) as E
    by (vm_compute; reflexivity).
  split_and!; [exact E|by rewrite E|vm_compute; reflexivity..].
Qed.



Lemma storage_writes_db_witness :
  w_dicts (storage 0 3 7 config_world).2
    = <[2%nat := <["db" := CInt 7]> {[ "host" := CStr "localhost" ]}]>
        (w_dicts config_world)
  /\ w_dicts (storage 0 3 7 config_world).2 <> w_dicts config_world.
Proof.
  destruct (storage_writes_db 0 3 7 config_world
              {[ "redis" := CObj 2%nat ]} {[ "host" := CStr "localhost" ]} 2
              eq_refl eq_refl eq_refl) as [H _].
  destruct (H eq_refl) as [H1 H2]. split; [exact H1|].
  apply H2. vm_compute. discriminate.
Defined.

(** ** Further properties on the reference instances *)

Lemma redis_backend_primed : primed (r_c redis_backend) seed redis_world.
Proof.
  apply (RedisStorage_init_returned (zlaws := lit_zlib_laws) 0 (CObj 2)
           (dict_setitem (CObj 2) "db" (CInt 7) config_world).2
           redis_world redis_backend).
  vm_compute. reflexivity.
Defined.

Lemma redis_get_list_decode_fault_witness :
  (get_list 0 (BRedis redis_backend) "k"
     (StrictRedis_rpush 7 "k" "junk" redis_world).2).1 = Raised zlib_error.
Proof.
  apply (redis_get_list_decode_fault 0 redis_backend "k" "junk" ["junk"]
           (StrictRedis_rpush 7 "k" "junk" redis_world).2).
  - apply (primed_same_zlib _ _ redis_world); [reflexivity..|].
    exact redis_backend_primed.
  - reflexivity.
  - apply list_elem_of_singleton. reflexivity.
  - vm_compute. reflexivity.
Defined.

Lemma redis_append_order_witness :
  ((append_all (BRedis redis_backend)
      [("k1", PList [PInt 1; PInt 2]); ("k2", PInt 5);
       ("k1", PList [PInt 3; PInt 4])] ;;;
    get_list 0 (BRedis redis_backend) "k1") redis_world).1
  = Returned (PList [PStr "[1, 2]"; PStr "[3, 4]"]).
Proof.
  change [PStr "[1, 2]"; PStr "[3, 4]"]
    with (PStr <$> ([] ++ (text_of <$> [PList [PInt 1; PInt 2]; PList [PInt 3; PInt 4]]))).
  change [PList [PInt 1; PInt 2]; PList [PInt 3; PInt 4]]
    with (values_of "k1" [("k1", PList [PInt 1; PInt 2]); ("k2", PInt 5);
                          ("k1", PList [PInt 3; PInt 4])]).
  apply (redis_append_order (zlaws := lit_zlib_laws) 0 0 (CObj 2)
           (dict_setitem (CObj 2) "db" (CInt 7) config_world).2
           redis_world redis_backend
           [("k1", PList [PInt 1; PInt 2]); ("k2", PInt 5);
            ("k1", PList [PInt 3; PInt 4])] "k1" []).
  - vm_compute. reflexivity.
  - intros key. exists []. unfold redis_holds, redis_keyspace.
    assert (w_redis redis_world = ∅) as -> by (vm_compute; reflexivity).
    rewrite lookup_empty. simpl. by rewrite lookup_empty.
  - reflexivity.
  - repeat constructor; eexists; reflexivity.
Defined.


Lemma lmdb_get_list_sorted_set_witness :
  exists ts : list string,
    (get_list 0 (BLMDB lmdb_backend) "k"
       (append_all (BLMDB lmdb_backend)
          [("k", PInt 2); ("j", PInt 9); ("k", PInt 1); ("k", PInt 2)]
          lmdb_world).2).1 = Returned (PList (PStr <$> ts))
    /\ NoDup ts
    /\ (forall t, t ∈ ts <->
           exists v,
             v ∈ values_of "k"
                   [("k", PInt 2); ("j", PInt 9); ("k", PInt 1); ("k", PInt 2)]
             /\ json_dumps v = Some t)
    /\ StronglySorted bytes_lt (compress_out seed <$> ts).
Proof.
  apply (lmdb_get_list_sorted_set (zlaws := lit_zlib_laws) 0 0 (CObj 5)
           (dict_setitem (CObj 5) "db" (CStr "7") config_world).2
           lmdb_world _ lmdb_backend).
  - vm_compute. reflexivity.
  - reflexivity.
  - discriminate.
  - vm_compute. reflexivity.
Defined.

Lemma lmdb_append_idempotent_witness :
  lmdb_table lmdb_backend
    (append_val (BLMDB lmdb_backend) "k" (PInt 1)
       (append_all (BLMDB lmdb_backend) [("k", PInt 2); ("k", PInt 1)]
          lmdb_world).2).2
  = lmdb_table lmdb_backend
      (append_all (BLMDB lmdb_backend) [("k", PInt 2); ("k", PInt 1)]
         lmdb_world).2.
Proof.
  apply (lmdb_append_idempotent (zlaws := lit_zlib_laws) 0 (CObj 5)
           (dict_setitem (CObj 5) "db" (CStr "7") config_world).2
           lmdb_world _ _ lmdb_backend [("k", PInt 2); ("k", PInt 1)] "k" (PInt 1)).
  - vm_compute. reflexivity.
  - reflexivity.
  - vm_compute. reflexivity.
  - vm_compute. apply elem_of_cons. right. apply elem_of_cons. by left.
  - vm_compute. reflexivity.
Defined.

Lemma lmdb_reopen_witness :
  exists ts : list string,
    (get_list 0 (BLMDB lmdb_backend) "k"
       (append_all (BLMDB lmdb_backend) [("k", PInt 2); ("k", PInt 1)]
          lmdb_world).2).1 = Returned (PList (PStr <$> ts))
    /\ (get_list 0 (BLMDB lmdb_backend2) "k"
          (LMDBStorage_init 0 (CObj 5)
             (append_all (BLMDB lmdb_backend) [("k", PInt 2); ("k", PInt 1)]
                lmdb_world).2).2).1 = Returned (PList (PStr <$> ts)).
Proof.
  apply (lmdb_reopen (zlaws := lit_zlib_laws) 0 0 0 (CObj 5)
           (dict_setitem (CObj 5) "db" (CStr "7") config_world).2
           lmdb_world _ _ lmdb_backend lmdb_backend2
           [("k", PInt 2); ("k", PInt 1)] "k").
  - vm_compute. reflexivity.
  - reflexivity.
  - discriminate.
  - vm_compute. reflexivity.
  - vm_compute. reflexivity.
Defined.

Lemma set_val_then_get_val_witness :
  ((set_val (BRedis redis_backend) "k" "x" ;;;
    get_val (BRedis redis_backend) "k") redis_world).1 = Returned (PStr "x")
  /\ ((set_val (BInMemory mem_backend) "k" "x" ;;;
       get_val (BInMemory mem_backend) "k") mem_world).1 = Returned (PStr "x")
  /\ set_val (BLMDB lmdb_backend) "k" "x" lmdb_world
      = (Raised NotImplementedError, lmdb_world).
Proof.
  split_and!.
  - exact (proj1 (set_val_then_get_val (BRedis redis_backend) "k" "x"
                    redis_world I)).
  - refine (proj1 (set_val_then_get_val (BInMemory mem_backend) "k" "x"
                     mem_world _)).
    eexists. vm_compute. reflexivity.
  - refine (proj1 (set_val_then_get_val (BLMDB lmdb_backend) "k" "x"
                     lmdb_world _)).
    vm_compute. exact I.
Defined.

Lemma append_val_after_set_val_witness :
  ((set_val (BRedis redis_backend) "k" "x" ;;;
    append_val (BRedis redis_backend) "k" (PInt 1)) redis_world).1
    = Raised redis_ResponseError
  /\ ((set_val (BRedis redis_backend) "k" "x" ;;;
       attempt (append_val (BRedis redis_backend) "k" (PInt 1)) ;;;
       get_val (BRedis redis_backend) "k") redis_world).1 = Returned (PStr "x").
Proof.
  apply (append_val_after_set_val (BRedis redis_backend) "k" "x" (PInt 1)
           redis_world I).
  split; [exact redis_backend_primed|]. eexists. reflexivity.
Defined.

Lemma in_memory_append_order_interleaved_witness :
  ((s <- InMemoryStorage_init (CObj 1) ;;
    do_calls 0 (BInMemory s)
      [CallAppendVal "k" (PInt 1); CallSetVal "j" "x"; CallAppendVal "j" (PInt 7);
       CallGetVal "none"; CallAppendVal "k" (PInt 2); CallKeys] ;;;
    get_list 0 (BInMemory s) "k") config_world).1
  = Returned (PList [PInt 1; PInt 2]).
Proof.
  apply (in_memory_append_order_interleaved 0 (CObj 1)
           [CallAppendVal "k" (PInt 1); CallSetVal "j" "x";
            CallAppendVal "j" (PInt 7); CallGetVal "none";
            CallAppendVal "k" (PInt 2); CallKeys] "k" config_world).
  reflexivity.
Defined.

Lemma storage_failures_witness :
  storage 0 3 7 no_client_world =
    (Raised (ImportError "redis-py is required to use Redis as storage."),
     set_dicts (fun h => <[2%nat := <["db" := CInt 7]> {[ "host" := CStr "localhost" ]}]> h)
       no_client_world)
  /\ storage 0 0 7 (set_dicts (fun _ => [ {[ "lmdb" := CStr "/tmp/testlmdb" ]} ]) empty_world)
     = (Raised TypeError,
        set_dicts (fun _ => [ {[ "lmdb" := CStr "/tmp/testlmdb" ]} ]) empty_world).
Proof.
  split.
  - destruct (storage_failures 0 3 7 no_client_world {[ "redis" := CObj 2%nat ]}
                eq_refl eq_refl) as (_ & _ & H & _).
    apply H; reflexivity.
  - eapply (storage_failures 0 0 7
              (set_dicts (fun _ => [ {[ "lmdb" := CStr "/tmp/testlmdb" ]} ]) empty_world)
              {[ "lmdb" := CStr "/tmp/testlmdb" ]}).
    + reflexivity.
    + vm_compute. reflexivity.
    + vm_compute. reflexivity.
    + vm_compute. reflexivity.
    + discriminate.
Defined.

Lemma storage_returned_witness :
  r_storage redis_backend = 7 /\ w_mem redis_world = w_mem config_world.
Proof.
  apply (storage_returned (zlaws := lit_zlib_laws) 0 3 7 config_world redis_world
           (BRedis redis_backend)).
  vm_compute. reflexivity.
Defined.

Lemma storage_backends_disjoint_witness :
  disjoint_backends (BRedis redis_backend)
    (BRedis {| r_name := "redis"; r_storage := 8;
               r_c := {| c_context := 3%nat; d_context := 3%nat |} |}).
Proof.
  apply (storage_backends_disjoint (zlaws := lit_zlib_laws) 0 0 3 3 7 8
           config_world redis_world (storage 0 3 8 redis_world).2).
  - vm_compute. reflexivity.
  - vm_compute. reflexivity.
  - discriminate.
Defined.

Lemma backend_isolation_witness :
  same_view (BRedis redis_backend) redis_world
    (do_calls 0
       (BRedis {| r_name := "redis"; r_storage := 8;
                  r_c := {| c_context := 1%nat; d_context := 1%nat |} |})
       [CallSetVal "k" "x"; CallAppendVal "j" (PInt 1); CallGetList "j"]
       redis_world).2.
Proof.
  apply (backend_isolation 0
           (BRedis {| r_name := "redis"; r_storage := 8;
                      r_c := {| c_context := 1%nat; d_context := 1%nat |} |})
           (BRedis redis_backend)).
  simpl. discriminate.
Defined.

Lemma reads_do_not_write_witness :
  same_stores redis_world
    (do_call 0 (BRedis redis_backend) (CallGetList "k") redis_world).2.
Proof.
  apply (reads_do_not_write 0 (BRedis redis_backend) (CallGetList "k") redis_world).
  exact I.
Defined.
